(** * Chat rooms, messages and the live channel: a shallow embedding

    The development follows the Django application [server/chat]:
    - [models.py]      the tables [ChatRoom] and [Message];
    - [serializers.py] [ChatRoomSerializer.create];
    - [views.py]       [MessageViewSet] (listing, [mark_read]);
    - [consumers.py]   [ChatConsumer] (the WebSocket session).

    Database rows are records, the tables live in a record [DB], and every
    method that touches the database or the socket is a computation in a
    small state-and-exception monad, so that what a method has already done
    when an exception escapes stays observable. *)

From stdpp Require Import base option list gmap sets strings sorting.
From Stdlib Require Import ZArith Lia Ascii DecimalString.

Set Warnings "-register-all,-clear-no-such-hyp".
Local Open Scope string_scope.
Local Open Scope Z_scope.

(** ** Python values and exceptions *)

(** The exception classes that the modelled code raises or lets escape. *)
Inductive exn : Type :=
  | DoesNotExist                      (* ChatRoom.DoesNotExist *)
  | OperationalError                  (* django.db: the database cannot be reached *)
  | ValueError                        (* int() on a string that is no integer literal;
                                         json.loads on a number of too many digits *)
  | TypeError                         (* int() on an object that is no number *)
  | AttributeError                    (* attribute missing on an object *)
  | JSONDecodeError                   (* json.loads on a text that is no JSON *)
  | RecursionError                    (* json.loads on a text nested too deep *)
  | IntegrityError                    (* django.db: a row breaks a constraint *)
  | ValidationError (detail : string). (* rest_framework.serializers.ValidationError *)

(** The value [json.loads] returns.  A float is kept by its literal and by
    whether it equals zero, which is all its truthiness needs. *)
Inductive json : Type :=
  | JNull
  | JBool (b : bool)
  | JInt (z : Z)
  | JFloat (is_zero : bool) (literal : string)
  | JStr (s : string)
  | JArr (l : list json)
  | JObj (d : gmap string json).

(** Python truthiness, as tested by [if not x]. *)
Definition truthy (v : json) : bool :=
  match v with
  | JNull => false
  | JBool b => b
  | JInt z => negb (z =? 0)
  | JFloat is_zero _ => negb is_zero
  | JStr s => negb (String.eqb s "")
  | JArr l => match l with [] => false | _ => true end
  | JObj d => negb (bool_decide (dom d = ∅))
  end.

(** [v == s] for a parsed value [v] and a [str] literal [s]. *)
Definition json_eq_str (v : json) (s : string) : bool :=
  match v with
  | JStr s' => String.eqb s' s
  | _ => false
  end.

(** [d.get(key)] yields [None] (here [JNull]) for a missing key. *)
Definition dict_get (d : gmap string json) (key : string) : json :=
  default JNull (d !! key).

(** [d.get(key, dflt)] *)
Definition dict_get_default (d : gmap string json) (key : string) (dflt : json) : json :=
  default dflt (d !! key).

(** Truthiness of an optional [str] ([None] and [''] are falsy). *)
Definition str_truthy (o : option string) : bool :=
  match o with
  | None => false
  | Some s => negb (String.eqb s "")
  end.

(** ** The state-and-exception monad *)

Inductive result (A : Type) : Type :=
  | Ok (a : A)
  | Raise (e : exn).
Arguments Ok {A} a.
Arguments Raise {A} e.

(** The builtins of the Python runtime that the application calls and whose
    definition is not part of it. *)
Class PyRuntime : Type := {
  py_int : string → option Z;          (* int(s) for a str; None stands for ValueError *)
  json_loads : string → result json;   (* json.loads(s): the value, or the exception it
                                          raises (JSONDecodeError on a text that is no
                                          JSON, RecursionError or ValueError on some
                                          others) *)
  py_str : json → string;              (* str(v), the text a TextField stores for v *)
}.

Definition M (S A : Type) : Type := S → result A * S.

#[global] Instance M_ret {S} : MRet (M S) := λ A a s, (Ok a, s).
#[global] Instance M_bind {S} : MBind (M S) := λ A B k m s,
  match m s with
  | (Ok a, s') => k a s'
  | (Raise e, s') => (Raise e, s')
  end.

Definition raise {S A} (e : exn) : M S A := λ s, (Raise e, s).
Definition get {S} : M S S := λ s, (Ok s, s).
Definition modify {S} (f : S → S) : M S unit := λ s, (Ok tt, f s).

(** [try: m  except: h], for a handler [h] that is given the exception. *)
Definition try_except {S A} (m : M S A) (h : exn → M S A) : M S A := λ s,
  match m s with
  | (Ok a, s') => (Ok a, s')
  | (Raise e, s') => h e s'
  end.

(** ** models.py *)

Record User : Type := {
  user_pk : Z;
  user_email : string;
  user_first_name : string;
  user_last_name : string;
}.

Record ChatRoom : Type := {
  room_pk : Z;
  room_name : string;
  room_participants : gset Z;       (* ManyToManyField to the user table, by key *)
  room_booking : option Z;
  room_created_at : Z;
}.

Record Message : Type := {
  msg_id : Z;
  msg_room : Z;                     (* room_id *)
  msg_sender : option Z;            (* sender_id, NULL after the sender is deleted *)
  msg_content : string;
  msg_timestamp : Z;
  msg_is_read : bool;
}.

(** The database.  [db_up = false] stands for a database that cannot be
    reached: every query then raises [OperationalError]. *)
Record DB : Type := {
  db_up : bool;
  db_users : gmap Z User;
  db_rooms : gmap Z ChatRoom;
  db_messages : list Message;       (* rows of the message table, in insertion order *)
  db_next_room : Z;
  db_next_message : Z;
}.

Definition set_messages (ms : list Message) (db : DB) : DB :=
  {| db_up := db_up db; db_users := db_users db; db_rooms := db_rooms db;
     db_messages := ms; db_next_room := db_next_room db;
     db_next_message := db_next_message db |}.

Definition set_read (m : Message) : Message :=
  {| msg_id := msg_id m; msg_room := msg_room m; msg_sender := msg_sender m;
     msg_content := msg_content m; msg_timestamp := msg_timestamp m;
     msg_is_read := true |}.

(** What the database does with a message row offered for insertion: the
    exception [Message.objects.create] raises on a row the database does
    not take (a text the connection cannot encode, a sender whose row is
    gone), [None] when it takes the row. *)
Class DatabaseBackend : Type := {
  rejects : DB → Message → option exn;
}.

(** ** The object-relational layer

    A [QuerySet] over the message table is lazy: it is a description of the
    rows wanted, and the table is read only when the query set is evaluated
    ([fetch]) or used for a bulk update ([update_is_read]). *)
Module orm.

(** The database connection every query needs. *)
Definition connection : M DB unit := λ db,
  if db_up db then (Ok tt, db) else (Raise OperationalError, db).

(** [ChatRoom.objects.prefetch_related('participants').get(pk=pk)] *)
Definition ChatRoom_get (pk : Z) : M DB ChatRoom :=
  connection;;
  db ← get;
  match db_rooms db !! pk with
  | Some room => mret room
  | None => raise DoesNotExist
  end.

(** [user in room.participants.all()]: model instances are equal when
    their keys are. *)
Definition user_in_participants (user : User) (room : ChatRoom) : bool :=
  bool_decide (user_pk user ∈ room_participants room).

Record QuerySet : Type := {
  qs_none : bool;                 (* made by [.none()]: evaluates to no row, without a query *)
  qs_where : Message → bool;      (* the WHERE clause *)
}.

(** [Message.objects] *)
Definition objects : QuerySet := {| qs_none := false; qs_where := λ _, true |}.
(** [.none()] *)
Definition none (q : QuerySet) : QuerySet :=
  {| qs_none := true; qs_where := qs_where q |}.
(** [.filter(cond)] *)
Definition filter (cond : Message → bool) (q : QuerySet) : QuerySet :=
  {| qs_none := qs_none q; qs_where := λ m, qs_where q m && cond m |}.
(** [.exclude(cond)] *)
Definition exclude (cond : Message → bool) (q : QuerySet) : QuerySet :=
  {| qs_none := qs_none q; qs_where := λ m, qs_where q m && negb (cond m) |}.

(** The lookups used by the application.  [sender=user] compares the
    column [sender_id] with the key; on a NULL sender it does not hold, so
    that [exclude(sender=user)] keeps the rows without sender. *)
Definition room_id_is (room_id : Z) (m : Message) : bool := msg_room m =? room_id.
Definition is_read_is (b : bool) (m : Message) : bool := Bool.eqb (msg_is_read m) b.
Definition sender_is (user : User) (m : Message) : bool :=
  match msg_sender m with
  | Some s => s =? user_pk user
  | None => false
  end.
Definition sender_isnull (b : bool) (m : Message) : bool :=
  Bool.eqb (match msg_sender m with None => true | Some _ => false end) b.

(** [Meta.ordering = ['timestamp']] and [.order_by('timestamp')]: oldest
    first. *)
Definition timestamp_le (m1 m2 : Message) : Prop :=
  msg_timestamp m1 ≤ msg_timestamp m2.
#[global] Instance timestamp_le_dec : RelDecision timestamp_le :=
  λ m1 m2, decide (msg_timestamp m1 ≤ msg_timestamp m2).

Definition order_by_timestamp (rows : list Message) : list Message :=
  merge_sort timestamp_le rows.

(** The rows a query set selects from a table. *)
Definition select (q : QuerySet) (rows : list Message) : list Message :=
  if qs_none q then [] else List.filter (qs_where q) rows.

(** [Message.objects.create(room=room, sender=sender, content=content)]:
    the key comes from the table's sequence, [timestamp] from the server
    clock ([auto_now_add]), [is_read] from its default.  The INSERT raises
    when the database does not take the row. *)
Definition Message_create `{DatabaseBackend} (room : ChatRoom) (sender : User)
    (content : string) (now : Z) : M DB Message :=
  connection;;
  db ← get;
  let message :=
    {| msg_id := db_next_message db; msg_room := room_pk room;
       msg_sender := Some (user_pk sender); msg_content := content;
       msg_timestamp := now; msg_is_read := false |} in
  match rejects db message with Some e => raise e | None => mret tt end;;
  modify (λ db, {| db_up := db_up db; db_users := db_users db;
                   db_rooms := db_rooms db;
                   db_messages := db_messages db ++ [message];
                   db_next_room := db_next_room db;
                   db_next_message := db_next_message db + 1 |});;
  mret message.

(** Evaluation of a query set (iteration, as the serializer does). *)
Definition fetch (q : QuerySet) : M DB (list Message) :=
  if qs_none q then mret []
  else connection;;
       db ← get;
       mret (order_by_timestamp (select q (db_messages db))).

(** [.update(is_read=True)]: one UPDATE statement; returns the number of
    rows matched. *)
Definition update_is_read (q : QuerySet) : M DB nat :=
  if qs_none q then mret 0%nat
  else connection;;
       db ← get;
       modify (set_messages
                 ((λ m, if qs_where q m then set_read m else m) <$> db_messages db));;
       mret (length (select q (db_messages db))).

(** [.count()]: one SELECT COUNT. *)
Definition count (q : QuerySet) : M DB nat :=
  if qs_none q then mret 0%nat
  else connection;;
       db ← get;
       mret (length (select q (db_messages db))).

(** [.first()] on a query set of messages, which [Meta.ordering] orders by
    [timestamp]: the first row in that order, [None] when there is none. *)
Definition first (q : QuerySet) : M DB (option Message) :=
  rows ← fetch q;
  mret (head rows).

(** [Meta.ordering = ['-created_at']] of [ChatRoom]: newest first. *)
Definition created_at_ge (r1 r2 : ChatRoom) : Prop :=
  room_created_at r2 ≤ room_created_at r1.
#[global] Instance created_at_ge_dec : RelDecision created_at_ge :=
  λ r1 r2, decide (room_created_at r2 ≤ room_created_at r1).

(** [ChatRoom.objects.filter(participants=user).distinct()], evaluated: the
    rows of the room table that have [user] among their participants, each
    once, in the order of [Meta.ordering]. *)
Definition ChatRoom_filter_participants (user : User) : M DB (list ChatRoom) :=
  connection;;
  db ← get;
  mret (merge_sort created_at_ge
          (List.filter (user_in_participants user) (map_to_list (db_rooms db)).*2)).

(** [room.participants.all()] for a room instance: the participants the
    database holds for the instance's key (none when the row is gone). *)
Definition participants_all (room : ChatRoom) : M DB (gset Z) :=
  connection;;
  db ← get;
  mret (default ∅ (room_participants <$> db_rooms db !! room_pk room)).

End orm.

(** ** views.py *)
Module views.

Record Request : Type := {
  req_user : User;                          (* request.user, authenticated *)
  req_query_params : gmap string string;    (* request.query_params *)
}.

(** What [MessageSerializer] renders of a message.  The nested sender
    details come from the user application's serializer; the sender is
    kept here by key. *)
Record MessageData : Type := {
  data_id : Z;
  data_room : Z;
  data_sender : option Z;
  data_content : string;
  data_timestamp : Z;
  data_is_read : bool;
}.

Definition MessageSerializer (m : Message) : MessageData :=
  {| data_id := msg_id m; data_room := msg_room m; data_sender := msg_sender m;
     data_content := msg_content m; data_timestamp := msg_timestamp m;
     data_is_read := msg_is_read m |}.

Inductive ResponseData : Type :=
  | ErrorData (error : string)                      (* {"error": ...} *)
  | MarkedData (success : bool) (marked_count : nat) (* {"success": ..., "marked_count": ...} *)
  | MessageListData (l : list MessageData).

Record Response : Type := {
  status : Z;
  data : ResponseData;
}.

Definition HTTP_200_OK : Z := 200.
Definition HTTP_400_BAD_REQUEST : Z := 400.
Definition HTTP_403_FORBIDDEN : Z := 403.
Definition HTTP_404_NOT_FOUND : Z := 404.

Module MessageViewSet.
Section methods.
Context `{PyRuntime}.

(** [get_queryset]; the result is the lazy query set, not its rows. *)
Definition get_queryset (request : Request) : M DB orm.QuerySet :=
  let user := req_user request in
  let room_id := req_query_params request !! "room" in
  if negb (str_truthy room_id) then mret (orm.none orm.objects)
  else
    match py_int (default "" room_id) with
    | None => mret (orm.none orm.objects)
    | Some room_id =>
        (* the [try] block: [Some q] when it returns [q], [None] when it falls through *)
        returned ← try_except
          (room ← orm.ChatRoom_get room_id;
           if negb (orm.user_in_participants user room)
           then mret (Some (orm.none orm.objects))
           else mret None)
          (λ e, match e with
                | DoesNotExist => mret (Some (orm.none orm.objects))
                | _ => raise e
                end);
        match returned with
        | Some q => mret q
        | None =>
            let messages := orm.filter (orm.room_id_is room_id) orm.objects in
            orm.update_is_read
              (orm.exclude (orm.sender_is user)
                 (orm.filter (orm.is_read_is false)
                    (orm.filter (orm.sender_isnull false)
                       (orm.filter (orm.room_id_is room_id) orm.objects))));;
            mret messages
        end
    end.

(** [list]: the query set is evaluated when the serializer's data is
    taken, that is after [get_queryset] has returned. *)
Definition list (request : Request) : M DB Response :=
  queryset ← get_queryset request;
  rows ← orm.fetch queryset;
  mret {| status := HTTP_200_OK;
          data := MessageListData (MessageSerializer <$> rows) |}.

Definition mark_read (request : Request) : M DB Response :=
  let user := req_user request in
  let room_id := req_query_params request !! "room" in
  if negb (str_truthy room_id)
  then mret {| status := HTTP_400_BAD_REQUEST; data := ErrorData "Room ID is required" |}
  else
    match py_int (default "" room_id) with
    | None => mret {| status := HTTP_400_BAD_REQUEST;
                      data := ErrorData "Invalid room ID format" |}
    | Some room_id =>
        returned ← try_except
          (room ← orm.ChatRoom_get room_id;
           if negb (orm.user_in_participants user room)
           then mret (Some {| status := HTTP_403_FORBIDDEN;
                              data := ErrorData "You are not a participant in this chat room" |})
           else mret None)
          (λ e, match e with
                | DoesNotExist =>
                    mret (Some {| status := HTTP_404_NOT_FOUND;
                                  data := ErrorData "Chat room not found" |})
                | _ => raise e
                end);
        match returned with
        | Some response => mret response
        | None =>
            count ← orm.update_is_read
              (orm.exclude (orm.sender_is user)
                 (orm.filter (orm.is_read_is false)
                    (orm.filter (orm.room_id_is room_id) orm.objects)));
            mret {| status := HTTP_200_OK; data := MarkedData true count |}
        end
    end.

End methods.
End MessageViewSet.

Module ChatRoomViewSet.

(** [get_queryset], as the list action evaluates it. *)
Definition get_queryset (request : Request) : M DB (list ChatRoom) :=
  let user := req_user request in
  orm.ChatRoom_filter_participants user.

End ChatRoomViewSet.

End views.

(** ** consumers.py *)
Module consumers.

(** [scope.get('user')]: absent, the anonymous user, or a user instance. *)
Inductive ScopeUser : Type :=
  | NoUser
  | AnonymousUser
  | AuthUser (u : User).

Inductive ConnState : Type := Connecting | Active | Closed.

(** The sender summary and the message view that is broadcast. *)
Record SenderData : Type := {
  sender_id : Z;
  sender_email : string;
  sender_first_name : string;
  sender_last_name : string;
}.

Record MessageView : Type := {
  view_id : Z;
  view_sender : SenderData;
  view_content : json;                 (* the value received, as the instance holds it *)
  view_timestamp : Z;
  view_room : Z;
}.

(** The frames [self.send(text_data=json.dumps(...))] writes to the socket. *)
Inductive Frame : Type :=
  | ErrorFrame (error : string)                  (* {'error': ...} *)
  | ReadStatusFrame (status message : string)    (* {'type': 'read_status', ...} *)
  | MessageFrame (message : MessageView).

(** The consumer instance: the handshake's scope, the attributes that
    [connect] assigns ([None] while unassigned), the state of the socket
    and the frames written to it, oldest first. *)
Record Consumer : Type := {
  scope_user : ScopeUser;
  scope_room_id : option string;       (* scope['url_route']['kwargs'].get('room_id') *)
  channel_name : string;
  user : option ScopeUser;
  room_id : option (option string);
  room_group_name : option string;
  conn : ConnState;
  sent : list Frame;
}.

(** What a consumer's method runs in: the instance, the database, and the
    channel layer with its groups and the events published to them. *)
Record Env : Type := {
  self : Consumer;
  db : DB;
  groups : gmap string (gset string);
  published : list (string * MessageView);
}.

Definition with_self (f : Consumer → Consumer) (env : Env) : Env :=
  {| self := f (self env); db := db env; groups := groups env;
     published := published env |}.
Definition with_db (d : DB) (env : Env) : Env :=
  {| self := self env; db := d; groups := groups env; published := published env |}.

Definition set_user (v : ScopeUser) (c : Consumer) : Consumer :=
  {| scope_user := scope_user c; scope_room_id := scope_room_id c;
     channel_name := channel_name c; user := Some v; room_id := room_id c;
     room_group_name := room_group_name c; conn := conn c; sent := sent c |}.
Definition set_room_id (v : option string) (c : Consumer) : Consumer :=
  {| scope_user := scope_user c; scope_room_id := scope_room_id c;
     channel_name := channel_name c; user := user c; room_id := Some v;
     room_group_name := room_group_name c; conn := conn c; sent := sent c |}.
Definition set_room_group_name (v : string) (c : Consumer) : Consumer :=
  {| scope_user := scope_user c; scope_room_id := scope_room_id c;
     channel_name := channel_name c; user := user c; room_id := room_id c;
     room_group_name := Some v; conn := conn c; sent := sent c |}.
Definition set_conn (v : ConnState) (c : Consumer) : Consumer :=
  {| scope_user := scope_user c; scope_room_id := scope_room_id c;
     channel_name := channel_name c; user := user c; room_id := room_id c;
     room_group_name := room_group_name c; conn := v; sent := sent c |}.
Definition set_sent (v : list Frame) (c : Consumer) : Consumer :=
  {| scope_user := scope_user c; scope_room_id := scope_room_id c;
     channel_name := channel_name c; user := user c; room_id := room_id c;
     room_group_name := room_group_name c; conn := conn c; sent := v |}.

(** [self.close()], [self.accept()], [self.send(...)] *)
Definition close : M Env unit := modify (with_self (set_conn Closed)).
Definition accept : M Env unit := modify (with_self (set_conn Active)).
Definition send (f : Frame) : M Env unit :=
  modify (with_self (λ c, set_sent (sent c ++ [f]) c)).

(** [self.channel_layer.group_add], [group_discard], [group_send] *)
Definition group_add (group channel : string) : M Env unit :=
  modify (λ env, {| self := self env; db := db env;
                    groups := <[group := {[channel]} ∪ default ∅ (groups env !! group)]>
                                (groups env);
                    published := published env |}).
Definition group_discard (group channel : string) : M Env unit :=
  modify (λ env, {| self := self env; db := db env;
                    groups := alter (λ members, members ∖ {[channel]}) group (groups env);
                    published := published env |}).
Definition group_send (group : string) (message : MessageView) : M Env unit :=
  modify (λ env, {| self := self env; db := db env; groups := groups env;
                    published := published env ++ [(group, message)] |}).

(** [database_sync_to_async]: the method runs against the database. *)
Definition database_sync_to_async {A} (m : M DB A) : M Env A := λ env,
  let '(r, d) := m (db env) in (r, with_db d env).

(** The attributes as [receive] reads them.  [receive] runs on accepted
    connections only, where [connect] has stored the authenticated user,
    the room id of the route and the group name; reading an attribute
    that holds anything else stops the method with [AttributeError]. *)
Definition self_user : M Env User := λ env,
  match user (self env) with
  | Some (AuthUser u) => (Ok u, env)
  | _ => (Raise AttributeError, env)
  end.
Definition self_room_id : M Env string := λ env,
  match room_id (self env) with
  | Some (Some r) => (Ok r, env)
  | _ => (Raise AttributeError, env)
  end.
Definition self_room_group_name : M Env string := λ env,
  match room_group_name (self env) with
  | Some g => (Ok g, env)
  | None => (Raise AttributeError, env)
  end.

Module ChatConsumer.
Section methods.
Context `{PyRuntime} `{DatabaseBackend}.

(** The key a lookup [pk=room_id] or [room_id=room_id] compares with,
    for the [str] the route gives: the field converts it with [int]. *)
Definition to_pk (room_id : string) : M DB Z :=
  match py_int room_id with
  | Some pk => mret pk
  | None => raise ValueError
  end.

Definition is_user_participant (room_id : string) (user : User) : M Env bool :=
  database_sync_to_async
    (try_except
       (pk ← to_pk room_id;
        room ← orm.ChatRoom_get pk;
        mret (orm.user_in_participants user room))
       (λ e, match e with
             | DoesNotExist => mret false
             | _ => raise e
             end)).

Definition save_message (room_id : string) (sender : User) (content : json)
    (now : Z) : M Env (option Message) :=
  database_sync_to_async
    (try_except
       (pk ← to_pk room_id;
        room ← orm.ChatRoom_get pk;
        message ← orm.Message_create room sender (py_str content) now;
        mret (Some message))
       (λ e, match e with
             | DoesNotExist => mret None
             | _ => mret None         (* except Exception *)
             end)).

Definition mark_messages_as_read (room_id : string) (user : User) : M Env bool :=
  database_sync_to_async
    (try_except
       (pk ← to_pk room_id;
        count ← orm.update_is_read
          (orm.exclude (orm.sender_is user)
             (orm.filter (orm.is_read_is false)
                (orm.filter (orm.room_id_is pk) orm.objects)));
        mret true)
       (λ _, mret false)).

Definition mark_messages_read : M Env unit :=
  room_id ← self_room_id;
  user ← self_user;
  success ← mark_messages_as_read room_id user;
  if success : bool
  then send (ReadStatusFrame "success" "Messages marked as read")
  else send (ReadStatusFrame "error" "Failed to mark messages as read").

Definition connect : M Env unit :=
  env ← get;
  let user := scope_user (self env) in
  modify (with_self (set_user user));;
  match user with
  | NoUser | AnonymousUser => close
  | AuthUser u =>
      let room_id := scope_room_id (self env) in
      modify (with_self (set_room_id room_id));;
      if negb (str_truthy room_id) then close
      else
        let room_id := default "" room_id in
        is_participant ← is_user_participant room_id u;
        if negb (is_participant : bool) then close
        else
          let room_group_name := "chat_" +:+ room_id in
          modify (with_self (set_room_group_name room_group_name));;
          group_add room_group_name (channel_name (self env));;
          accept
  end.

Definition disconnect : M Env unit :=
  env ← get;
  match room_group_name (self env) with
  | Some g => group_discard g (channel_name (self env))
  | None => mret tt
  end.

(** What the [try] block of [receive] leaves: it has returned, or it
    falls through with the message content. *)
Inductive Parsed : Type :=
  | Returned
  | Content (message_content : json).

Definition receive (text_data : option string) (now : Z) : M Env unit :=
  if negb (str_truthy text_data) then mret tt
  else
    parsed ←
      match json_loads (default "" text_data) return M Env Parsed with
      | Raise JSONDecodeError =>      (* except json.JSONDecodeError *)
          send (ErrorFrame "Invalid JSON format.");;
          mret Returned
      | Raise e => raise e            (* any other exception of json.loads *)
      | Ok (JObj text_data_json) =>
          let message_type := dict_get_default text_data_json "type" (JStr "message") in
          if json_eq_str message_type "mark_read"
          then mark_messages_read;; mret Returned
          else mret (Content (dict_get text_data_json "message"))
      | Ok _ => raise AttributeError  (* no [get] on a value that is no dict *)
      end;
    match parsed with
    | Returned => mret tt
    | Content message_content =>
        if negb (truthy message_content)
        then send (ErrorFrame "Message content cannot be empty.")
        else
          room_id ← self_room_id;
          user ← self_user;
          message_instance ← save_message room_id user message_content now;
          match message_instance with
          | None => send (ErrorFrame "Failed to save message.")
          | Some message_instance =>
              let message_data :=
                {| view_id := msg_id message_instance;
                   view_sender :=
                     {| sender_id := user_pk user;
                        sender_email := user_email user;
                        sender_first_name := user_first_name user;
                        sender_last_name := user_last_name user |};
                   view_content := message_content;
                   view_timestamp := msg_timestamp message_instance;
                   view_room := msg_room message_instance |} in
              room_group_name ← self_room_group_name;
              group_send room_group_name message_data
          end
    end.

(** [chat_message]: the handler of a broadcast event. *)
Definition chat_message (message : MessageView) : M Env unit :=
  send (MessageFrame message).

End methods.
End ChatConsumer.

End consumers.

(** ** serializers.py *)
Module serializers.

(** An entry of [participant_ids] as [create] may find it: a primary key,
    as the code takes it to be, or the user instance that a
    [PrimaryKeyRelatedField] resolves a key to. *)
Inductive Participant : Type :=
  | Pk (pk : Z)
  | UserInstance (u : User).

Record ValidatedData : Type := {
  participant_ids : option (list Participant);   (* [None]: key absent *)
  name : string;
  booking : option Z;
}.

(** The value the lookup [pk__in] compares the key column with: the
    integer field converts each entry with [int], which raises
    [TypeError] on a model instance. *)
Fixpoint prepare_pks (entries : list Participant) : result (list Z) :=
  match entries with
  | [] => Ok []
  | Pk pk :: rest =>
      match prepare_pks rest with
      | Ok pks => Ok (pk :: pks)
      | Raise e => Raise e
      end
  | UserInstance _ :: _ => Raise TypeError
  end.

(** The users [User.objects.filter(pk__in=pks)] selects, by key. *)
Definition users_with_pk_in (pks : gset Z) (d : DB) : gset Z :=
  pks ∩ dom (db_users d).

Module ChatRoomSerializer.

(** [create]; [requesting_user] is [self.context['request'].user] and
    [now] the server clock ([created_at] is [auto_now_add]).  The set
    [participants] is kept as the list of its elements until the lookup
    turns them into keys. *)
Definition create (validated_data : ValidatedData) (requesting_user : User)
    (now : Z) : M DB ChatRoom :=
  let participant_ids := default [] (participant_ids validated_data) in
  let participants := (participant_ids ++ [Pk (user_pk requesting_user)])%list in
  match prepare_pks participants with
  | Raise e => raise e
  | Ok pks =>
      let user_participants := users_with_pk_in (list_to_set pks) in
      orm.connection;;
      d ← get;
      if bool_decide (size (user_participants d) < 2)%nat
      then raise (ValidationError "A chat room requires at least two participants.")
      else
        let room :=
          {| room_pk := db_next_room d; room_name := name validated_data;
             room_participants := user_participants d;
             room_booking := booking validated_data;
             room_created_at := now |} in
        modify (λ d, {| db_up := db_up d; db_users := db_users d;
                        db_rooms := <[room_pk room := room]> (db_rooms d);
                        db_messages := db_messages d;
                        db_next_room := db_next_room d + 1;
                        db_next_message := db_next_message d |});;
        mret room
  end.

(** [get_unread_count]; [user] is [getattr(request, 'user', None)] for the
    request of the context, [None] when there is none. *)
Definition get_unread_count (obj : ChatRoom) (user : option User) : M DB nat :=
  match user with
  | Some user =>
      orm.count
        (orm.exclude (orm.sender_is user)
           (orm.filter (orm.is_read_is false)
              (orm.filter (orm.room_id_is (room_pk obj)) orm.objects)))
  | None => mret 0%nat
  end.

(** The field [last_message], whose source is [messages.first]. *)
Definition last_message (obj : ChatRoom) : M DB (option Message) :=
  orm.first (orm.filter (orm.room_id_is (room_pk obj)) orm.objects).

End ChatRoomSerializer.

End serializers.

(** ** permissions.py *)
Module permissions.

(** The object a permission is asked for: a room, an object with a [room]
    attribute (a message), or anything else. *)
Inductive Obj : Type :=
  | RoomObj (room : ChatRoom)
  | MessageObj (message : Message)
  | OtherObj.

Module IsChatRoomParticipant.

Definition message : string :=
  "You do not have permission to access this chat room.".

(** [has_object_permission]; [obj.room] loads the room of the message by
    its key. *)
Definition has_object_permission (user : User) (obj : Obj) : M DB bool :=
  match obj with
  | RoomObj room =>
      participants ← orm.participants_all room;
      mret (bool_decide (user_pk user ∈ participants))
  | MessageObj m =>
      room ← orm.ChatRoom_get (msg_room m);
      participants ← orm.participants_all room;
      mret (bool_decide (user_pk user ∈ participants))
  | OtherObj => mret false
  end.

End IsChatRoomParticipant.

End permissions.

(** ** A concrete runtime and concrete data

    The scenario of the end-to-end tests: alice (key 1) and bob (key 2) are
    the participants of room 7; carol (key 3) is not. *)
Module demo.

(** [int] on a string of ASCII digits. *)
Definition int_of_digits (s : string) : option Z :=
  Z.of_uint <$> NilZero.uint_of_string s.

Definition quoted (s : string) : string :=
  String "034"%char (s +:+ String "034"%char "").

(** The text [{"message": "hi"}] and its like. *)
Definition frame_hi : string :=
  "{" +:+ quoted "message" +:+ ": " +:+ quoted "hi" +:+ "}".
Definition frame_empty : string :=
  "{" +:+ quoted "message" +:+ ": " +:+ quoted "" +:+ "}".
Definition frame_typing : string :=
  "{" +:+ quoted "type" +:+ ": " +:+ quoted "typing" +:+ ", "
      +:+ quoted "message" +:+ ": " +:+ quoted "hi" +:+ "}".
Definition frame_mark_read : string :=
  "{" +:+ quoted "type" +:+ ": " +:+ quoted "mark_read" +:+ "}".

(** The frame [{"type": "typing", "message": "hi"}] as [json.loads]
    returns it. *)
Definition typing_object : gmap string json :=
  <[ "type" := JStr "typing" ]> {[ "message" := JStr "hi" ]}.

(** The text of 100000 opening brackets, on which [json.loads] raises
    [RecursionError], and a number of 5000 digits, on which it raises
    [ValueError] (the limit on the digits of an [int]). *)
Definition frame_deep : string :=
  String "["%char (N.iter 99999 (String "["%char) "").
Definition frame_long_number : string :=
  String "1"%char (N.iter 4999 (String "1"%char) "").

(** [json.loads] on the frames above; any other text is taken as
    malformed. *)
Definition loads (s : string) : result json :=
  if String.eqb s frame_hi then Ok (JObj {[ "message" := JStr "hi" ]})
  else if String.eqb s frame_empty then Ok (JObj {[ "message" := JStr "" ]})
  else if String.eqb s frame_typing then Ok (JObj typing_object)
  else if String.eqb s frame_mark_read then Ok (JObj {[ "type" := JStr "mark_read" ]})
  else if String.eqb s frame_deep then Raise RecursionError
  else if String.eqb s frame_long_number then Raise ValueError
  else Raise JSONDecodeError.

(** [str] on a [str], which is all the frames above carry. *)
Definition str (v : json) : string :=
  match v with
  | JStr s => s
  | _ => ""
  end.

Definition runtime : PyRuntime :=
  {| py_int := int_of_digits; json_loads := loads; py_str := str |}.

Definition alice : User :=
  {| user_pk := 1; user_email := "alice@example.com";
     user_first_name := "Alice"; user_last_name := "A" |}.
Definition bob : User :=
  {| user_pk := 2; user_email := "bob@example.com";
     user_first_name := "Bob"; user_last_name := "B" |}.
Definition carol : User :=
  {| user_pk := 3; user_email := "carol@example.com";
     user_first_name := "Carol"; user_last_name := "C" |}.

Definition room7 : ChatRoom :=
  {| room_pk := 7; room_name := ""; room_participants := {[ 1; 2 ]};
     room_booking := None; room_created_at := 0 |}.

(** Messages of room 7: one from alice, one whose sender has been deleted. *)
Definition hi_from_alice : Message :=
  {| msg_id := 1; msg_room := 7; msg_sender := Some 1; msg_content := "hi";
     msg_timestamp := 10; msg_is_read := false |}.
Definition orphan : Message :=
  {| msg_id := 2; msg_room := 7; msg_sender := None; msg_content := "bye";
     msg_timestamp := 20; msg_is_read := false |}.

Definition db0 : DB :=
  {| db_up := true;
     db_users := {[ 1 := alice; 2 := bob; 3 := carol ]};
     db_rooms := {[ 7 := room7 ]};
     db_messages := [hi_from_alice; orphan];
     db_next_room := 8; db_next_message := 3 |}.

(** The same database when it cannot be reached. *)
Definition db_down : DB :=
  {| db_up := false; db_users := db_users db0; db_rooms := db_rooms db0;
     db_messages := db_messages db0; db_next_room := 8; db_next_message := 3 |}.

(** A database that enforces the foreign key of [Message.sender]: it
    refuses a row whose sender has no row in the table of users. *)
Definition backend : DatabaseBackend :=
  {| rejects db m :=
       match msg_sender m with
       | Some pk => if bool_decide (pk ∈ dom (db_users db)) then None
                    else Some IntegrityError
       | None => None
       end |}.

(** The database once alice's account has been deleted while her session
    is open. *)
Definition db_without_alice : DB :=
  {| db_up := true;
     db_users := {[ 2 := bob; 3 := carol ]};
     db_rooms := db_rooms db0;
     db_messages := [orphan];
     db_next_room := 8; db_next_message := 3 |}.

(** The database after bob has read room 7. *)
Definition db_read_by_bob : DB :=
  set_messages [set_read hi_from_alice; set_read orphan] db0.

Definition request (u : User) (room : string) : views.Request :=
  {| views.req_user := u; views.req_query_params := {[ "room" := room ]} |}.
Definition request_without_room (u : User) : views.Request :=
  {| views.req_user := u; views.req_query_params := ∅ |}.

(** A consumer at the handshake for room 7, and alice's accepted session. *)
Definition handshake (u : consumers.ScopeUser) : consumers.Consumer :=
  {| consumers.scope_user := u; consumers.scope_room_id := Some "7";
     consumers.channel_name := "channel.1"; consumers.user := None;
     consumers.room_id := None; consumers.room_group_name := None;
     consumers.conn := consumers.Connecting; consumers.sent := [] |}.

Definition session_alice : consumers.Consumer :=
  {| consumers.scope_user := consumers.AuthUser alice;
     consumers.scope_room_id := Some "7";
     consumers.channel_name := "channel.1";
     consumers.user := Some (consumers.AuthUser alice);
     consumers.room_id := Some (Some "7");
     consumers.room_group_name := Some "chat_7";
     consumers.conn := consumers.Active; consumers.sent := [] |}.

Definition env_of (c : consumers.Consumer) (d : DB) : consumers.Env :=
  {| consumers.self := c; consumers.db := d;
     consumers.groups := {[ "chat_7" := {[ "channel.0" ]} ]};
     consumers.published := [] |}.

(** A second room, of bob and carol, created later than room 7, and a
    database that holds both. *)
Definition room9 : ChatRoom :=
  {| room_pk := 9; room_name := "later"; room_participants := {[ 2; 3 ]};
     room_booking := None; room_created_at := 50 |}.

Definition db_two_rooms : DB :=
  {| db_up := true;
     db_users := db_users db0;
     db_rooms := {[ 7 := room7; 9 := room9 ]};
     db_messages := db_messages db0;
     db_next_room := 10; db_next_message := 3 |}.

(** A text that is no JSON. *)
Definition frame_garbage : string := "not json".

(** [json.loads] that also knows the text [[1]], a list. *)
Definition frame_list : string := "[1]".
Definition loads_lists (s : string) : result json :=
  if String.eqb s frame_list then Ok (JArr [JInt 1]) else loads s.
Definition runtime_lists : PyRuntime :=
  {| py_int := int_of_digits; json_loads := loads_lists; py_str := str |}.

(** Bob at the handshake for the same room, spelled [007] in the URL. *)
Definition handshake_007 : consumers.Consumer :=
  {| consumers.scope_user := consumers.AuthUser bob;
     consumers.scope_room_id := Some "007";
     consumers.channel_name := "channel.2"; consumers.user := None;
     consumers.room_id := None; consumers.room_group_name := None;
     consumers.conn := consumers.Connecting; consumers.sent := [] |}.

(** Alice's session on a room that is not in the database. *)
Definition session_gone : consumers.Consumer :=
  {| consumers.scope_user := consumers.AuthUser alice;
     consumers.scope_room_id := Some "8";
     consumers.channel_name := "channel.1";
     consumers.user := Some (consumers.AuthUser alice);
     consumers.room_id := Some (Some "8");
     consumers.room_group_name := Some "chat_8";
     consumers.conn := consumers.Active; consumers.sent := [] |}.

(** Alice's session once its channel has joined the group of room 7. *)
Definition env_joined : consumers.Env :=
  {| consumers.self := session_alice; consumers.db := db0;
     consumers.groups := {[ "chat_7" := {[ "channel.0"; "channel.1" ]} ]};
     consumers.published := [] |}.

End demo.


(** * Vocabulary of the statements *)

#[global] Instance Message_eq_dec : EqDecision Message.
Proof. solve_decision. Defined.

(** The table after [update(is_read=True)] on the rows [cond] selects. *)
Definition mark (cond : Message → bool) (rows : list Message) : list Message :=
  (λ m, if cond m then set_read m else m) <$> rows.

(** The row [Message.objects.create(room=room, sender=u, content=content)]
    offers to the database [d] at the time [now]. *)
Definition row_offered (d : DB) (room : ChatRoom) (u : User) (content : string)
    (now : Z) : Message :=
  {| msg_id := db_next_message d; msg_room := room_pk room;
     msg_sender := Some (user_pk u); msg_content := content;
     msg_timestamp := now; msg_is_read := false |}.

(** The WHERE clause of
    [filter(room_id=R, is_read=False).exclude(sender=u)]. *)
Definition unread_from_others (R : Z) (u : User) (m : Message) : bool :=
  orm.room_id_is R m && orm.is_read_is false m && negb (orm.sender_is u m).

(** The WHERE clause of
    [filter(room_id=R, sender__isnull=False, is_read=False).exclude(sender=u)]. *)
Definition unread_from_other_senders (R : Z) (u : User) (m : Message) : bool :=
  orm.room_id_is R m && orm.sender_isnull false m && orm.is_read_is false m
  && negb (orm.sender_is u m).

(** The number of rows in which two states of the table differ. *)
Definition rows_changed (rows rows' : list Message) : nat :=
  length (List.filter (λ p, bool_decide (p.1 ≠ p.2)) (zip rows rows')).

(** [reader]'s call has read room [R]: no message of the room from anyone
    else (or from nobody) is unread, each row is as before or has become
    read, and the reader's own rows and the rows of other rooms are as
    before. *)
Definition read_by (R : Z) (reader : User) (rows rows' : list Message) : Prop :=
  (∀ m, m ∈ rows' → msg_room m = R → msg_sender m ≠ Some (user_pk reader) →
        msg_is_read m = true) ∧
  Forall2 (λ m m', (m' = m ∨ m' = set_read m) ∧
                   (msg_sender m = Some (user_pk reader) ∨ msg_room m ≠ R → m' = m))
          rows rows'.

(** [reader]'s listing has read room [R]: no message of the room from
    another sender is unread, each row is as before or has become read, and
    the rows without sender, the reader's own rows and the rows of other
    rooms are as before. *)
Definition read_by_listing (R : Z) (reader : User) (rows rows' : list Message) : Prop :=
  (∀ m s, m ∈ rows' → msg_room m = R → msg_sender m = Some s → s ≠ user_pk reader →
          msg_is_read m = true) ∧
  Forall2 (λ m m', (m' = m ∨ m' = set_read m) ∧
                   (msg_sender m = None ∨ msg_sender m = Some (user_pk reader) ∨
                    msg_room m ≠ R → m' = m))
          rows rows'.

(** The messages of room [R] in a table. *)
Definition messages_of (R : Z) (rows : list Message) : list Message :=
  List.filter (orm.room_id_is R) rows.

(** The answer of a listing that shows nothing. *)
Definition empty_list : views.Response :=
  {| views.status := views.HTTP_200_OK; views.data := views.MessageListData [] |}.

(** [m] leaves the socket's state and the groups alone. *)
Definition keeps_session {A} (m : M consumers.Env A) : Prop :=
  ∀ env r env', m env = (r, env') →
    consumers.conn (consumers.self env') = consumers.conn (consumers.self env) ∧
    consumers.groups env' = consumers.groups env.

(** The environment whose socket has the frames [l] written before
    everything else. *)
Definition prepend (l : list consumers.Frame) (env : consumers.Env) : consumers.Env :=
  consumers.with_self (λ c, consumers.set_sent (l ++ consumers.sent c) c) env.

(** [m] runs the same whatever was written to the socket before. *)
Definition outbox_stable {A} (m : M consumers.Env A) : Prop :=
  ∀ l env, m (prepend l env) = let '(r, e) := m env in (r, prepend l e).

(** The WHERE clause that selects the unread messages of room [R] that
    have no sender. *)
Definition unread_without_sender (R : Z) (m : Message) : bool :=
  orm.room_id_is R m && orm.is_read_is false m && orm.sender_isnull true m.

(** The table [rows'] holds every row of [rows], in place, as it was or
    turned read, followed by the rows [added]. *)
Definition persists (rows rows' added : list Message) : Prop :=
  ∃ kept, rows' = (kept ++ added)%list ∧
          Forall2 (λ m m', m' = m ∨ m' = set_read m) rows kept.

(** The room table is keyed by the rooms' primary keys. *)
Definition rooms_by_key (d : DB) : Prop :=
  ∀ pk room, db_rooms d !! pk = Some room → room_pk room = pk.

(** The channels the channel layer holds for a group. *)
Definition membersOf (group : string) (env : consumers.Env) : gset string :=
  default ∅ (consumers.groups env !! group).

(** * Properties *)

(** ** The object-relational layer *)

#[global] Instance timestamp_le_total : Total orm.timestamp_le.
Proof. intros m1 m2. unfold orm.timestamp_le. lia. Qed.

#[global] Instance timestamp_le_trans : Transitive orm.timestamp_le.
Proof. intros m1 m2 m3. unfold orm.timestamp_le. lia. Qed.

Section orm_facts.

Lemma update_is_read_run (q : orm.QuerySet) (d : DB) :
  orm.qs_none q = false → db_up d = true →
  orm.update_is_read q d =
    (Ok (length (List.filter (orm.qs_where q) (db_messages d))),
     set_messages (mark (orm.qs_where q) (db_messages d)) d).
Proof.
  intros Hn Hup. unfold orm.update_is_read, orm.select. rewrite Hn.
  cbv [mbind M_bind mret M_ret orm.connection get modify]. by rewrite Hup.
Qed.

Lemma update_is_read_down (q : orm.QuerySet) (d : DB) :
  orm.qs_none q = false → db_up d = false →
  orm.update_is_read q d = (Raise OperationalError, d).
Proof.
  intros Hn Hup. unfold orm.update_is_read. rewrite Hn.
  cbv [mbind M_bind mret M_ret orm.connection get modify]. by rewrite Hup.
Qed.

Lemma ChatRoom_get_run (pk : Z) (d : DB) :
  orm.ChatRoom_get pk d =
    if db_up d then
      match db_rooms d !! pk with
      | Some room => (Ok room, d)
      | None => (Raise DoesNotExist, d)
      end
    else (Raise OperationalError, d).
Proof.
  cbv [orm.ChatRoom_get mbind M_bind mret M_ret orm.connection get raise].
  destruct (db_up d); [|done]. by destruct (db_rooms d !! pk).
Qed.

Lemma set_read_is_read m : msg_is_read (set_read m) = true.
Proof. done. Qed.

Lemma set_read_ne m : msg_is_read m = false → set_read m ≠ m.
Proof. intros Hm Heq. apply (f_equal msg_is_read) in Heq. simpl in Heq. congruence. Qed.

Lemma sender_is_spec u m :
  orm.sender_is u m = true ↔ msg_sender m = Some (user_pk u).
Proof.
  unfold orm.sender_is. destruct (msg_sender m) as [s|]; [|done].
  rewrite Z.eqb_eq. split; [by intros ->|by intros [= ->]].
Qed.

Lemma unread_from_others_spec R u m :
  unread_from_others R u m = true ↔
  msg_room m = R ∧ msg_is_read m = false ∧ msg_sender m ≠ Some (user_pk u).
Proof.
  unfold unread_from_others, orm.room_id_is, orm.is_read_is.
  rewrite !andb_true_iff, negb_true_iff, Z.eqb_eq, <- not_true_iff_false, sender_is_spec.
  destruct (msg_is_read m); simpl; naive_solver.
Qed.

Lemma unread_from_other_senders_spec R u m :
  unread_from_other_senders R u m = true ↔
  msg_room m = R ∧ msg_is_read m = false ∧
  ∃ s, msg_sender m = Some s ∧ s ≠ user_pk u.
Proof.
  unfold unread_from_other_senders, orm.room_id_is, orm.is_read_is, orm.sender_isnull.
  rewrite !andb_true_iff, negb_true_iff, Z.eqb_eq, <- not_true_iff_false, sender_is_spec.
  destruct (msg_is_read m), (msg_sender m) as [s|]; simpl; naive_solver.
Qed.

(** Marking changes nothing but the flag, and only on selected rows. *)
Lemma mark_Forall2 (cond : Message → bool) (rows : list Message) :
  Forall2 (λ m m', if cond m then m' = set_read m else m' = m) rows (mark cond rows).
Proof. unfold mark. induction rows; constructor; [by destruct (cond _)|done]. Qed.

(** When the selected rows are unread, the rows matched are the rows
    changed. *)
Lemma mark_rows_changed (cond : Message → bool) (rows : list Message) :
  (∀ m, cond m = true → msg_is_read m = false) →
  rows_changed rows (mark cond rows) = length (List.filter cond rows).
Proof.
  intros Hc. unfold rows_changed, mark. induction rows as [|m rows IH]; [done|].
  simpl. destruct (cond m) eqn:Hm; simpl.
  - rewrite bool_decide_true by (apply not_eq_sym, set_read_ne; auto).
    simpl. f_equal. exact IH.
  - rewrite bool_decide_false by (intros Hne; by apply Hne). exact IH.
Qed.

(** A second marking with the same condition finds nothing. *)
Lemma mark_nothing_left (cond : Message → bool) (rows : list Message) :
  (∀ m, cond m = true → msg_is_read m = false) →
  List.filter cond (mark cond rows) = [].
Proof.
  intros Hc. unfold mark. induction rows as [|m rows IH]; [done|].
  simpl. destruct (cond m) eqn:Hm.
  - destruct (cond (set_read m)) eqn:Hm'; [|done].
    apply Hc in Hm'. done.
  - by rewrite Hm.
Qed.

Lemma mark_read_by R u rows :
  read_by R u rows (mark (unread_from_others R u) rows).
Proof.
  split.
  - intros m' Hin HR Hs. unfold mark in Hin.
    apply list_elem_of_fmap in Hin as (m & -> & _).
    destruct (unread_from_others R u m) eqn:Hm; [done|].
    destruct (msg_is_read m) eqn:Hr; [done|].
    exfalso. apply not_true_iff_false in Hm. apply Hm.
    by apply unread_from_others_spec.
  - eapply Forall2_impl; [apply mark_Forall2|].
    intros m m' Hm. simpl in Hm.
    destruct (unread_from_others R u m) eqn:Hc; subst m'; [|by auto].
    apply unread_from_others_spec in Hc as (HR & _ & Hs).
    split; [by right|]. by intros [?|?].
Qed.

Lemma mark_read_by_listing R u rows :
  read_by_listing R u rows (mark (unread_from_other_senders R u) rows).
Proof.
  split.
  - intros m' s Hin HR Hs Hne. unfold mark in Hin.
    apply list_elem_of_fmap in Hin as (m & -> & _).
    destruct (unread_from_other_senders R u m) eqn:Hm; [done|].
    destruct (msg_is_read m) eqn:Hr; [done|].
    exfalso. apply not_true_iff_false in Hm. apply Hm.
    apply unread_from_other_senders_spec. eauto.
  - eapply Forall2_impl; [apply mark_Forall2|].
    intros m m' Hm. simpl in Hm.
    destruct (unread_from_other_senders R u m) eqn:Hc; subst m'; [|by auto].
    apply unread_from_other_senders_spec in Hc as (HR & _ & s & Hs & Hne).
    split; [by right|]. intros [Hn|[Hu|Hr]]; congruence.
Qed.

Lemma fetch_run (q : orm.QuerySet) (d : DB) :
  orm.qs_none q = false → db_up d = true →
  orm.fetch q d =
    (Ok (orm.order_by_timestamp (List.filter (orm.qs_where q) (db_messages d))), d).
Proof.
  intros Hn Hup. unfold orm.fetch, orm.select. rewrite Hn.
  cbv [mbind M_bind mret M_ret orm.connection get]. by rewrite Hup.
Qed.

End orm_facts.

(** ** views.py: [MessageViewSet] *)
Section views_facts.
Context `{PyRuntime}.
Import views.

Lemma str_truthy_Some (o : option string) :
  str_truthy o = true ↔ ∃ s, o = Some s ∧ s ≠ "".
Proof.
  destruct o as [s|]; simpl.
  - rewrite negb_true_iff, String.eqb_neq. naive_solver.
  - naive_solver.
Qed.

(** The path of [mark_read] that reaches the update. *)
Lemma mark_read_of_participant request d s R room :
  req_query_params request !! "room" = Some s → s ≠ "" →
  py_int s = Some R → db_up d = true → db_rooms d !! R = Some room →
  user_pk (req_user request) ∈ room_participants room →
  MessageViewSet.mark_read request d =
    (Ok {| status := HTTP_200_OK;
           data := MarkedData true
             (length (List.filter (unread_from_others R (req_user request))
                        (db_messages d))) |},
     set_messages (mark (unread_from_others R (req_user request)) (db_messages d)) d).
Proof.
  intros Hs Hne HR Hup Hroom Hin. unfold MessageViewSet.mark_read.
  rewrite Hs. simpl. apply String.eqb_neq in Hne. rewrite Hne. simpl. rewrite HR.
  cbv [mbind M_bind try_except]. rewrite ChatRoom_get_run, Hup, Hroom.
  unfold orm.user_in_participants. rewrite bool_decide_true by done. simpl.
  cbv [mret M_ret]. rewrite update_is_read_run by done. done.
Qed.

(** [mark_read] answers 200 on that path only. *)
Lemma mark_read_200_inv request d response d' :
  MessageViewSet.mark_read request d = (Ok response, d') →
  status response = HTTP_200_OK →
  ∃ s R room,
    req_query_params request !! "room" = Some s ∧ s ≠ "" ∧
    py_int s = Some R ∧ db_up d = true ∧ db_rooms d !! R = Some room ∧
    user_pk (req_user request) ∈ room_participants room.
Proof.
  unfold MessageViewSet.mark_read.
  destruct (str_truthy (req_query_params request !! "room")) eqn:Hs; simpl;
    [|by intros [= <- <-]].
  apply str_truthy_Some in Hs as (s & Hs & Hne). rewrite Hs. simpl.
  destruct (py_int s) as [R|] eqn:HR; [|by intros [= <- <-]].
  cbv [mbind M_bind try_except]. rewrite ChatRoom_get_run.
  destruct (db_up d) eqn:Hup; [|done].
  destruct (db_rooms d !! R) as [room|] eqn:Hroom; [|by intros [= <- <-]].
  unfold orm.user_in_participants.
  destruct (decide (user_pk (req_user request) ∈ room_participants room)) as [Hin|Hin].
  - intros _ _. by exists s, R, room.
  - rewrite bool_decide_false by done. by intros [= <- <-].
Qed.

(** The listing of a participant: the rows are read from the table
    as the update has left it. *)
Lemma list_of_participant request d s R room :
  req_query_params request !! "room" = Some s → s ≠ "" →
  py_int s = Some R → db_up d = true → db_rooms d !! R = Some room →
  user_pk (req_user request) ∈ room_participants room →
  let rows' := mark (unread_from_other_senders R (req_user request)) (db_messages d) in
  MessageViewSet.list request d =
    (Ok {| status := HTTP_200_OK;
           data := MessageListData
             (MessageSerializer <$> orm.order_by_timestamp (messages_of R rows')) |},
     set_messages rows' d).
Proof.
  intros Hs Hne HR Hup Hroom Hin rows'.
  unfold MessageViewSet.list, MessageViewSet.get_queryset.
  rewrite Hs. simpl. apply String.eqb_neq in Hne. rewrite Hne. simpl. rewrite HR.
  cbv [mbind M_bind try_except]. rewrite ChatRoom_get_run, Hup, Hroom.
  unfold orm.user_in_participants. rewrite bool_decide_true by done. simpl.
  cbv [mret M_ret]. rewrite update_is_read_run by done.
  rewrite fetch_run by done. done.
Qed.

(** Every listing that answers is empty and without effect, or is the
    listing of a participant. *)
Lemma list_cases request d response d' :
  MessageViewSet.list request d = (Ok response, d') →
  (response = empty_list ∧ d' = d) ∨
  ∃ s R room,
    req_query_params request !! "room" = Some s ∧ s ≠ "" ∧
    py_int s = Some R ∧ db_up d = true ∧ db_rooms d !! R = Some room ∧
    user_pk (req_user request) ∈ room_participants room.
Proof.
  unfold MessageViewSet.list, MessageViewSet.get_queryset.
  destruct (str_truthy (req_query_params request !! "room")) eqn:Hs; simpl;
    [|intros [= <- <-]; by left].
  apply str_truthy_Some in Hs as (s & Hs & Hne). rewrite Hs. simpl.
  destruct (py_int s) as [R|] eqn:HR; [|intros [= <- <-]; by left].
  cbv [mbind M_bind try_except]. rewrite ChatRoom_get_run.
  destruct (db_up d) eqn:Hup; [|done].
  destruct (db_rooms d !! R) as [room|] eqn:Hroom; [|intros [= <- <-]; by left].
  unfold orm.user_in_participants.
  destruct (decide (user_pk (req_user request) ∈ room_participants room)) as [Hin|Hin].
  - intros _. right. by exists s, R, room.
  - rewrite bool_decide_false by done. intros [= <- <-]. by left.
Qed.

End views_facts.

(** ** consumers.py: [ChatConsumer] *)
Section consumers_facts.
Context `{PyRuntime} `{DatabaseBackend}.
Import consumers.

Lemma with_db_id env : with_db (db env) env = env.
Proof. by destruct env. Qed.

(** What the membership guard answers, read off the database. *)
Lemma is_user_participant_run rid u env :
  ChatConsumer.is_user_participant rid u env =
    (match py_int rid with
     | None => Raise ValueError
     | Some R =>
         if db_up (db env) then
           match db_rooms (db env) !! R with
           | Some room => Ok (bool_decide (user_pk u ∈ room_participants room))
           | None => Ok false
           end
         else Raise OperationalError
     end, env).
Proof.
  unfold ChatConsumer.is_user_participant, database_sync_to_async, ChatConsumer.to_pk.
  cbv [mbind M_bind try_except].
  destruct (py_int rid) as [R|]; cbv [mret M_ret raise]; [|by rewrite with_db_id].
  rewrite ChatRoom_get_run.
  destruct (db_up (db env)); [|by rewrite with_db_id].
  destruct (db_rooms (db env) !! R); by rewrite with_db_id.
Qed.

(** The guard looks at the database only. *)
Lemma is_user_participant_with_self rid u f env :
  (ChatConsumer.is_user_participant rid u (with_self f env)).1 =
  (ChatConsumer.is_user_participant rid u env).1.
Proof. by rewrite !is_user_participant_run. Qed.

Lemma mark_messages_as_read_run rid u env :
  ChatConsumer.mark_messages_as_read rid u env =
    match py_int rid with
    | None => (Ok false, env)
    | Some R =>
        if db_up (db env)
        then (Ok true,
              with_db (set_messages (mark (unread_from_others R u) (db_messages (db env)))
                         (db env)) env)
        else (Ok false, env)
    end.
Proof.
  unfold ChatConsumer.mark_messages_as_read, database_sync_to_async, ChatConsumer.to_pk.
  cbv [mbind M_bind try_except].
  destruct (py_int rid) as [R|]; cbv [mret M_ret raise]; [|by rewrite with_db_id].
  destruct (db_up (db env)) eqn:Hup.
  - by rewrite update_is_read_run.
  - rewrite update_is_read_down by done. by rewrite with_db_id.
Qed.

(** What [save_message] answers, read off the database: the row it adds
    when the database takes it, [None] when the room id is no integer, the
    database cannot be reached, the room is missing or the database
    refuses the row. *)
Lemma save_message_run rid u content now env :
  ChatConsumer.save_message rid u content now env =
    match py_int rid with
    | None => (Ok None, env)
    | Some R =>
        if db_up (db env) then
          match db_rooms (db env) !! R with
          | Some room =>
              let message := row_offered (db env) room u (py_str content) now in
              match rejects (db env) message with
              | Some _ => (Ok None, env)
              | None =>
                  (Ok (Some message),
                   with_db {| db_up := db_up (db env); db_users := db_users (db env);
                              db_rooms := db_rooms (db env);
                              db_messages := (db_messages (db env) ++ [message])%list;
                              db_next_room := db_next_room (db env);
                              db_next_message := db_next_message (db env) + 1 |} env)
              end
          | None => (Ok None, env)
          end
        else (Ok None, env)
    end.
Proof.
  unfold ChatConsumer.save_message, database_sync_to_async, ChatConsumer.to_pk.
  cbv [mbind M_bind try_except].
  destruct (py_int rid) as [R|]; cbv [mret M_ret raise]; [|by rewrite with_db_id].
  rewrite ChatRoom_get_run.
  destruct (db_up (db env)) eqn:Hup; [|by rewrite with_db_id].
  destruct (db_rooms (db env) !! R) as [room|]; [|by rewrite with_db_id].
  cbv [orm.Message_create mbind M_bind mret M_ret orm.connection get modify raise].
  rewrite ?Hup. fold (row_offered (db env) room u (py_str content) now).
  destruct (rejects (db env) _) as [e|]; simpl.
  - destruct e; by rewrite with_db_id.
  - by rewrite Hup.
Qed.

(** *** Properties every step of [receive] keeps *)

Lemma keeps_session_bind {A B} (m : M Env A) (k : A → M Env B) :
  keeps_session m → (∀ a, keeps_session (k a)) → keeps_session (m ≫= k).
Proof.
  intros Hm Hk env r env'. cbv [mbind M_bind].
  destruct (m env) as [[a|e] env1] eqn:E; intros Hr.
  - destruct (Hm _ _ _ E) as [Hc Hg], (Hk a _ _ _ Hr) as [Hc' Hg'].
    split; congruence.
  - injection Hr as <- <-. by eapply Hm.
Qed.

Lemma keeps_session_ret {A} (a : A) : keeps_session (mret a).
Proof. by intros env r env' [= <- <-]. Qed.

Lemma keeps_session_raise {A} e : keeps_session (raise (A:=A) e).
Proof. by intros env r env' [= <- <-]. Qed.

Lemma keeps_session_send f : keeps_session (send f).
Proof. by intros env r env' [= <- <-]. Qed.

Lemma keeps_session_group_send g v : keeps_session (group_send g v).
Proof. by intros env r env' [= <- <-]. Qed.

Lemma keeps_session_db {A} (m : M DB A) : keeps_session (database_sync_to_async m).
Proof.
  intros env r env'. unfold database_sync_to_async.
  destruct (m (db env)) as [r' d']. by intros [= <- <-].
Qed.

Lemma keeps_session_self_user : keeps_session self_user.
Proof.
  intros env r env'. unfold self_user.
  destruct (user (self env)) as [[| |u]|]; by intros [= <- <-].
Qed.

Lemma keeps_session_self_room_id : keeps_session self_room_id.
Proof.
  intros env r env'. unfold self_room_id.
  destruct (room_id (self env)) as [[r'|]|]; by intros [= <- <-].
Qed.

Lemma keeps_session_self_room_group_name : keeps_session self_room_group_name.
Proof.
  intros env r env'. unfold self_room_group_name.
  destruct (room_group_name (self env)); by intros [= <- <-].
Qed.

Create HintDb session discriminated.
Hint Resolve keeps_session_ret keeps_session_raise keeps_session_send
  keeps_session_group_send keeps_session_db keeps_session_self_user
  keeps_session_self_room_id keeps_session_self_room_group_name : session.

Ltac session_steps :=
  repeat first
    [ apply keeps_session_bind; [|intros ?]
    | progress auto with session
    | match goal with
      | |- keeps_session (if ?b then _ else _) => destruct b
      | |- keeps_session (match ?x with _ => _ end) => destruct x
      end ].

Lemma keeps_session_receive text_data now :
  keeps_session (ChatConsumer.receive text_data now).
Proof.
  unfold ChatConsumer.receive, ChatConsumer.mark_messages_read,
    ChatConsumer.save_message, ChatConsumer.mark_messages_as_read.
  session_steps.
Qed.

(** *** Frames written earlier do not matter to [receive] *)

Lemma outbox_stable_bind {A B} (m : M Env A) (k : A → M Env B) :
  outbox_stable m → (∀ a, outbox_stable (k a)) → outbox_stable (m ≫= k).
Proof.
  intros Hm Hk l env. cbv [mbind M_bind]. rewrite Hm.
  destruct (m env) as [[a|e] env1]; [apply Hk|done].
Qed.

Lemma outbox_stable_ret {A} (a : A) : outbox_stable (mret a).
Proof. by intros l env. Qed.

Lemma outbox_stable_raise {A} e : outbox_stable (raise (A:=A) e).
Proof. by intros l env. Qed.

Lemma outbox_stable_send f : outbox_stable (send f).
Proof.
  intros l [c d g p]. cbv [send modify prepend with_self set_sent]. simpl.
  by rewrite app_assoc.
Qed.

Lemma outbox_stable_group_send g v : outbox_stable (group_send g v).
Proof. by intros l env. Qed.

Lemma outbox_stable_db {A} (m : M DB A) : outbox_stable (database_sync_to_async m).
Proof.
  intros l env. unfold database_sync_to_async. simpl.
  by destruct (m (db env)) as [r' d'].
Qed.

Lemma outbox_stable_self_user : outbox_stable self_user.
Proof.
  intros l env. unfold self_user. simpl.
  by destruct (user (self env)) as [[| |u]|].
Qed.

Lemma outbox_stable_self_room_id : outbox_stable self_room_id.
Proof.
  intros l env. unfold self_room_id. simpl.
  by destruct (room_id (self env)) as [[r'|]|].
Qed.

Lemma outbox_stable_self_room_group_name : outbox_stable self_room_group_name.
Proof.
  intros l env. unfold self_room_group_name. simpl.
  by destruct (room_group_name (self env)).
Qed.

Create HintDb outbox discriminated.
Hint Resolve outbox_stable_ret outbox_stable_raise outbox_stable_send
  outbox_stable_group_send outbox_stable_db outbox_stable_self_user
  outbox_stable_self_room_id outbox_stable_self_room_group_name : outbox.

Ltac outbox_steps :=
  repeat first
    [ apply outbox_stable_bind; [|intros ?]
    | progress auto with outbox
    | match goal with
      | |- outbox_stable (if ?b then _ else _) => destruct b
      | |- outbox_stable (match ?x with _ => _ end) => destruct x
      end ].

Lemma outbox_stable_receive text_data now :
  outbox_stable (ChatConsumer.receive text_data now).
Proof.
  unfold ChatConsumer.receive, ChatConsumer.mark_messages_read,
    ChatConsumer.save_message, ChatConsumer.mark_messages_as_read.
  outbox_steps.
Qed.

(** A frame whose type is not ['mark_read'] reaches the content check. *)
Lemma not_mark_read (d : gmap string json) :
  d !! "type" ≠ Some (JStr "mark_read") →
  json_eq_str (dict_get_default d "type" (JStr "message")) "mark_read" = false.
Proof.
  intros Ht. unfold dict_get_default.
  destruct (d !! "type") as [[| | | |s| |]|]; simpl; try done.
  apply String.eqb_neq. congruence.
Qed.

Lemma receive_content env now text d :
  text ≠ "" → json_loads text = Ok (JObj d) →
  d !! "type" ≠ Some (JStr "mark_read") →
  ChatConsumer.receive (Some text) now env =
    (if negb (truthy (dict_get d "message"))
     then send (ErrorFrame "Message content cannot be empty.")
     else
       room_id ← self_room_id;
       user ← self_user;
       message_instance ←
         ChatConsumer.save_message room_id user (dict_get d "message") now;
       match message_instance with
       | None => send (ErrorFrame "Failed to save message.")
       | Some message_instance =>
           room_group_name ← self_room_group_name;
           group_send room_group_name
             {| view_id := msg_id message_instance;
                view_sender :=
                  {| sender_id := user_pk user;
                     sender_email := user_email user;
                     sender_first_name := user_first_name user;
                     sender_last_name := user_last_name user |};
                view_content := dict_get d "message";
                view_timestamp := msg_timestamp message_instance;
                view_room := msg_room message_instance |}
       end) env.
Proof.
  intros Hne Hj Ht. unfold ChatConsumer.receive. simpl.
  apply String.eqb_neq in Hne. rewrite Hne. simpl. rewrite Hj.
  rewrite not_mark_read by done. done.
Qed.

End consumers_facts.

(** * The claims *)

Section read_state.
Context `{PyRuntime} `{DatabaseBackend}.
Import views.

Lemma mark_idem (cond : Message → bool) (rows : list Message) :
  (∀ m, cond m = true → msg_is_read m = false) →
  mark cond (mark cond rows) = mark cond rows.
Proof.
  intros Hc. unfold mark. rewrite <- list_fmap_compose.
  apply list_fmap_ext. intros _ m _. simpl.
  destruct (cond m) eqn:Hm; [|by rewrite Hm].
  destruct (cond (set_read m)) eqn:Hm'; [|done]. by apply Hc in Hm'.
Qed.

Lemma unread_from_others_unread R u m :
  unread_from_others R u m = true → msg_is_read m = false.
Proof. intros Hm. by apply unread_from_others_spec in Hm as (_ & ? & _). Qed.

(** C1, as the code has it.  [markRead(R, u)] completes and leaves every
    message of room [R] whose sender is not [u], the messages without
    sender included, read, the messages [u] sent being as they were.  The
    HTTP action [mark_read], called by a participant of the room, answers
    200 with the number of rows the update changed; the consumer's
    [mark_messages_as_read] runs the same update, touches nothing but the
    message table, and answers [True], not the number. *)
Theorem markRead_reads_others_and_counts :
  (∀ request d s R room,
     req_query_params request !! "room" = Some s → s ≠ "" →
     py_int s = Some R → db_up d = true → db_rooms d !! R = Some room →
     user_pk (req_user request) ∈ room_participants room →
     ∃ response d',
       MessageViewSet.mark_read request d = (Ok response, d') ∧
       status response = HTTP_200_OK ∧
       read_by R (req_user request) (db_messages d) (db_messages d') ∧
       data response =
         MarkedData true (rows_changed (db_messages d) (db_messages d'))) ∧
  (∀ room_id u env R,
     py_int room_id = Some R → db_up (consumers.db env) = true →
     ∃ env',
       consumers.ChatConsumer.mark_messages_as_read room_id u env = (Ok true, env') ∧
       read_by R u (db_messages (consumers.db env))
                   (db_messages (consumers.db env')) ∧
       consumers.self env' = consumers.self env ∧
       consumers.groups env' = consumers.groups env ∧
       consumers.published env' = consumers.published env).
Proof.
  split.
  - intros request d s R room Hs Hne HR Hup Hroom Hin. eexists _, _.
    split; [by eapply mark_read_of_participant|]. simpl.
    split_and!; [done|apply mark_read_by|].
    by rewrite mark_rows_changed by apply unread_from_others_unread.
  - intros rid u env R HR Hup. rewrite mark_messages_as_read_run, HR, Hup.
    eexists. split; [done|]. simpl. split_and!; [apply mark_read_by|done..].
Qed.

(** C7. A second [mark_read] right after a first answers with count 0 and
    changes nothing. *)
Theorem mark_read_twice_counts_zero request d response d' :
  MessageViewSet.mark_read request d = (Ok response, d') →
  status response = HTTP_200_OK →
  MessageViewSet.mark_read request d' =
    (Ok {| status := HTTP_200_OK; data := MarkedData true 0 |}, d').
Proof.
  intros Hrun H200.
  destruct (mark_read_200_inv _ _ _ _ Hrun H200)
    as (s & R & room & Hs & Hne & HR & Hup & Hroom & Hin).
  rewrite (mark_read_of_participant _ _ _ _ _ Hs Hne HR Hup Hroom Hin) in Hrun.
  injection Hrun as _ <-.
  rewrite (mark_read_of_participant _ _ s R room) by done. simpl.
  rewrite mark_nothing_left by apply unread_from_others_unread.
  rewrite mark_idem by apply unread_from_others_unread. done.
Qed.

(** C3, as the code has it.  A listing by a participant of room [R]
    leaves no message of [R] from another sender unread; the messages
    without sender and the caller's own keep their flag. *)
Theorem list_reads_other_senders request d s R room :
  req_query_params request !! "room" = Some s → s ≠ "" →
  py_int s = Some R → db_up d = true → db_rooms d !! R = Some room →
  user_pk (req_user request) ∈ room_participants room →
  ∃ response d',
    MessageViewSet.list request d = (Ok response, d') ∧
    status response = HTTP_200_OK ∧
    read_by_listing R (req_user request) (db_messages d) (db_messages d').
Proof.
  intros Hs Hne HR Hup Hroom Hin. eexists _, _.
  split; [by eapply list_of_participant|]. split; [done|]. apply mark_read_by_listing.
Qed.

Lemma messages_of_spec R rows m :
  m ∈ messages_of R rows ↔ m ∈ rows ∧ msg_room m = R.
Proof.
  unfold messages_of. rewrite !list_elem_of_In, filter_In.
  unfold orm.room_id_is. by rewrite Z.eqb_eq.
Qed.

(** C5. The listing is empty, with status 200, when the [room] parameter
    is missing, is no integer, names no room, or names a room the caller
    is no participant of; otherwise it holds all messages of the room,
    oldest first. *)
Theorem list_empty_or_room_oldest_first request d :
  let room := req_query_params request !! "room" in
  (room = None ∨ room = Some "" → MessageViewSet.list request d = (Ok empty_list, d)) ∧
  (∀ s, room = Some s → py_int s = None →
        MessageViewSet.list request d = (Ok empty_list, d)) ∧
  (∀ s R, room = Some s → py_int s = Some R → db_up d = true →
          db_rooms d !! R = None →
          MessageViewSet.list request d = (Ok empty_list, d)) ∧
  (∀ s R r, room = Some s → py_int s = Some R → db_up d = true →
            db_rooms d !! R = Some r →
            user_pk (req_user request) ∉ room_participants r →
            MessageViewSet.list request d = (Ok empty_list, d)) ∧
  (∀ s R r, room = Some s → s ≠ "" → py_int s = Some R → db_up d = true →
            db_rooms d !! R = Some r →
            user_pk (req_user request) ∈ room_participants r →
            ∃ rows d',
              MessageViewSet.list request d =
                (Ok {| status := HTTP_200_OK;
                       data := MessageListData (MessageSerializer <$> rows) |}, d') ∧
              rows ≡ₚ messages_of R (db_messages d') ∧
              StronglySorted orm.timestamp_le rows).
Proof.
  intros room. subst room.
  unfold MessageViewSet.list at 1 2 3 4, MessageViewSet.get_queryset.
  split_and!.
  - by intros [-> | ->].
  - intros s -> Hs. simpl. destruct (negb (s =? ""))%string; simpl; [|done].
    by rewrite Hs.
  - intros s R -> HR Hup Hroom. simpl.
    destruct (negb (s =? ""))%string; simpl; [|done]. rewrite HR.
    cbv [mbind M_bind try_except]. by rewrite ChatRoom_get_run, Hup, Hroom.
  - intros s R r -> HR Hup Hroom Hin. simpl.
    destruct (negb (s =? ""))%string; simpl; [|done]. rewrite HR.
    cbv [mbind M_bind try_except]. rewrite ChatRoom_get_run, Hup, Hroom.
    unfold orm.user_in_participants. by rewrite bool_decide_false.
  - intros s R r Hs Hne HR Hup Hroom Hin. eexists _, _.
    split; [by eapply list_of_participant|]. simpl. split.
    + apply merge_sort_Permutation.
    + apply (StronglySorted_merge_sort _).
Qed.


End read_state.

Section live_channel.
Context `{PyRuntime} `{DatabaseBackend}.
Import consumers.

(** C2, as the code has it.  The guard changes nothing; it answers [True]
    exactly when the room exists and [u] is one of its participants, and
    [False] exactly when the room is missing or [u] is no participant of
    it.  Only [ChatRoom.DoesNotExist] is turned into [False]: when the
    database cannot be reached the exception goes to the caller. *)
Theorem is_user_participant_guard room_id u env r env' :
  ChatConsumer.is_user_participant room_id u env = (r, env') →
  env' = env ∧
  (r = Ok true ↔
     db_up (db env) = true ∧
     ∃ R room, py_int room_id = Some R ∧ db_rooms (db env) !! R = Some room ∧
               user_pk u ∈ room_participants room) ∧
  (r = Ok false ↔
     db_up (db env) = true ∧
     ∃ R, py_int room_id = Some R ∧
          (db_rooms (db env) !! R = None ∨
           ∃ room, db_rooms (db env) !! R = Some room ∧
                   user_pk u ∉ room_participants room)) ∧
  (db_up (db env) = false → is_Some (py_int room_id) → r = Raise OperationalError).
Proof.
  rewrite is_user_participant_run. intros [= <- <-]. split; [done|].
  destruct (py_int room_id) as [R|]; [|split_and!; [naive_solver..|by intros _ [? [=]]]].
  destruct (db_up (db env)); [|split_and!; naive_solver].
  destruct (db_rooms (db env) !! R) as [room|] eqn:Hroom; [|split_and!; naive_solver].
  destruct (decide (user_pk u ∈ room_participants room)) as [Hin|Hin].
  - rewrite bool_decide_true by done. split_and!; naive_solver.
  - rewrite bool_decide_false by done. split_and!; naive_solver.
Qed.


(** C4, as the code has it.  A frame that parses to an object and whose
    type is not ['mark_read'] is handled as a send frame whatever its
    type says: it is processed exactly as the frame with the same
    [message] field and the type ['message'], or none.  On an accepted
    session whose room exists, a non-empty content is stored as a new
    message and published to the room's group when the database takes
    the row; when the database refuses the row the sender is answered
    with the frame for a failed save, and nothing is stored or published.
    Like every frame it leaves the socket's state and the groups as they
    are. *)
Theorem receive_other_type_as_message env now text text' d d' :
  text ≠ "" → text' ≠ "" →
  json_loads text = Ok (JObj d) → json_loads text' = Ok (JObj d') →
  d !! "type" ≠ Some (JStr "mark_read") →
  (d' !! "type" = None ∨ d' !! "type" = Some (JStr "message")) →
  d !! "message" = d' !! "message" →
  ChatConsumer.receive (Some text) now env = ChatConsumer.receive (Some text') now env ∧
  conn (self (ChatConsumer.receive (Some text) now env).2) = conn (self env) ∧
  groups (ChatConsumer.receive (Some text) now env).2 = groups env ∧
  (∀ u rid g R room,
     user (self env) = Some (AuthUser u) → room_id (self env) = Some (Some rid) →
     room_group_name (self env) = Some g →
     py_int rid = Some R → db_up (db env) = true →
     db_rooms (db env) !! R = Some room →
     truthy (dict_get d "message") = true →
     let message := row_offered (db env) room u (py_str (dict_get d "message")) now in
     (rejects (db env) message = None →
      ∃ view env',
        ChatConsumer.receive (Some text) now env = (Ok tt, env') ∧
        db_messages (db env') = (db_messages (db env) ++ [message])%list ∧
        msg_room message = room_pk room ∧ msg_sender message = Some (user_pk u) ∧
        msg_content message = py_str (dict_get d "message") ∧
        msg_is_read message = false ∧
        published env' = (published env ++ [(g, view)])%list ∧
        view_id view = msg_id message ∧ view_content view = dict_get d "message" ∧
        sent (self env') = sent (self env)) ∧
     (is_Some (rejects (db env) message) →
      ChatConsumer.receive (Some text) now env =
        (Ok tt,
         with_self (λ c, set_sent (sent c ++ [ErrorFrame "Failed to save message."])%list c)
           env))).
Proof.
  intros Hne Hne' Hj Hj' Ht Ht' Hm. split_and!.
  - rewrite (receive_content env now text d) by done.
    rewrite (receive_content env now text' d') by (done || destruct Ht' as [->| ->]; done).
    unfold dict_get. by rewrite Hm.
  - destruct (ChatConsumer.receive (Some text) now env) as [r env'] eqn:E.
    by apply keeps_session_receive in E as [Hc Hg].
  - destruct (ChatConsumer.receive (Some text) now env) as [r env'] eqn:E.
    by apply keeps_session_receive in E as [Hc Hg].
  - intros u rid g R room Hu Hrid Hg HR Hup Hroom Htruthy message.
    rewrite (receive_content env now text d) by done. rewrite Htruthy. simpl.
    cbv [mbind M_bind self_room_id self_user]. rewrite Hrid, Hu, save_message_run.
    rewrite HR, Hup, Hroom. cbv zeta. fold message. split.
    + intros ->. unfold self_room_group_name. simpl. rewrite Hg.
      eexists _, _. split; [reflexivity|]. simpl. split_and!; reflexivity.
    + by intros [e ->].
Qed.

(** C8. A send frame whose content is empty or missing is answered with
    the validation error, which is not the error for malformed JSON;
    nothing is stored or published, the socket's state and the groups
    stay, and the next frame is processed as it would have been, its
    replies following the error frame. *)
Theorem receive_empty_content_rejected env now text d r env' :
  text ≠ "" → json_loads text = Ok (JObj d) →
  d !! "type" ≠ Some (JStr "mark_read") →
  (d !! "message" = None ∨ d !! "message" = Some (JStr "")) →
  ChatConsumer.receive (Some text) now env = (r, env') →
  r = Ok tt ∧
  sent (self env') = (sent (self env) ++ [ErrorFrame "Message content cannot be empty."])%list ∧
  (∀ text0, text0 ≠ "" → json_loads text0 = Raise JSONDecodeError →
     sent (self (ChatConsumer.receive (Some text0) now env).2) =
       (sent (self env) ++ [ErrorFrame "Invalid JSON format."])%list ∧
     sent (self (ChatConsumer.receive (Some text0) now env).2) ≠ sent (self env')) ∧
  db env' = db env ∧ published env' = published env ∧ groups env' = groups env ∧
  conn (self env') = conn (self env) ∧
  (∀ next now', ∃ replies,
     let '(r1, e1) := ChatConsumer.receive next now' env in
     let '(r2, e2) := ChatConsumer.receive next now' env' in
     r2 = r1 ∧ db e2 = db e1 ∧ published e2 = published e1 ∧
     groups e2 = groups e1 ∧ conn (self e2) = conn (self e1) ∧
     sent (self e1) = (sent (self env) ++ replies)%list ∧
     sent (self e2) = (sent (self env') ++ replies)%list).
Proof.
  intros Hne Hj Ht Hm. rewrite (receive_content env now text d) by done.
  assert (truthy (dict_get d "message") = false) as ->
    by (unfold dict_get; by destruct Hm as [-> | ->]).
  simpl. intros [= <- <-]. simpl. split_and!; try done.
  - intros text0 Hne0 Hj0. unfold ChatConsumer.receive. simpl.
    apply String.eqb_neq in Hne0. rewrite Hne0. simpl. rewrite Hj0. simpl.
    split; [done|]. intros Heq. by apply app_inv_head in Heq.
  - intros next now'.
    set (env0 := with_self (set_sent []) env).
    set (err := ErrorFrame "Message content cannot be empty.").
    assert (env = prepend (sent (self env)) env0) as Henv.
    { destruct env as [[] ? ? ?]. cbv [prepend env0 with_self set_sent]. simpl.
      by rewrite ?app_nil_r. }
    assert (with_self (λ c, set_sent (sent c ++ [err])%list c) env
            = prepend (sent (self env) ++ [err])%list env0) as Henv'.
    { destruct env as [[] ? ? ?]. cbv [prepend env0 with_self set_sent]. simpl.
      by rewrite ?app_nil_r. }
    pose proof (outbox_stable_receive next now' (sent (self env)) env0) as E1.
    pose proof (outbox_stable_receive next now' (sent (self env) ++ [err])%list env0) as E2.
    rewrite <- Henv in E1. rewrite <- Henv' in E2.
    destruct (ChatConsumer.receive next now' env0) as [r0 e0].
    exists (sent (self e0)). rewrite E1, E2. simpl. split_and!; done.
Qed.

End live_channel.

Section room_creation.
Import serializers.

Lemma prepare_pks_instance (entries : list Participant) (x : User) :
  UserInstance x ∈ entries → prepare_pks entries = Raise TypeError.
Proof.
  induction entries as [|[pk|y] entries IH]; [by intros ?%elem_of_nil| |done].
  intros [[=]|Hin]%elem_of_cons. cbn [prepare_pks]. by rewrite IH.
Qed.

(** An entry that is a user instance makes the key lookup fail before the
    database is asked. *)
Lemma create_raises_on_instance validated_data u now d x :
  UserInstance x ∈ default [] (participant_ids validated_data) →
  ChatRoomSerializer.create validated_data u now d = (Raise TypeError, d).
Proof.
  intros Hx. unfold ChatRoomSerializer.create.
  rewrite (prepare_pks_instance _ x); [done|]. set_solver.
Qed.

(** With no entry the set holds the requesting user's key alone, and one
    user makes no room. *)
Lemma create_without_entries validated_data u now d :
  default [] (participant_ids validated_data) = [] →
  ChatRoomSerializer.create validated_data u now d =
    if db_up d
    then (Raise (ValidationError "A chat room requires at least two participants."), d)
    else (Raise OperationalError, d).
Proof.
  intros Hids. unfold ChatRoomSerializer.create. rewrite Hids.
  cbn [app prepare_pks].
  cbv [mbind M_bind mret M_ret orm.connection get modify raise].
  destruct (db_up d) eqn:Hup; [|done].
  rewrite bool_decide_true; [done|].
  assert (users_with_pk_in (list_to_set [user_pk u]) d ⊆ {[ user_pk u ]}) as Hsub
    by (unfold users_with_pk_in; set_solver).
  apply subseteq_size in Hsub. rewrite size_singleton in Hsub. lia.
Qed.

(** C9, on the code.  The field [participant_ids] hands [create] the
    users that the listed ids name, not their keys.  As soon as one user
    is listed, the lookup [pk__in] raises [TypeError] before anything is
    counted: the request is not answered with the validation error, not
    even when it lists the requesting user alone.  A request that lists
    nobody is rejected with the validation error, the requesting user
    being the only participant.  So on the data the serializer validates
    [create] stores no room and returns none. *)
Theorem create_raises_TypeError_on_listed_users validated_data u now d users :
  default [] (participant_ids validated_data) = UserInstance <$> users →
  (users ≠ [] →
     ChatRoomSerializer.create validated_data u now d = (Raise TypeError, d)) ∧
  (users = [] → db_up d = true →
     ChatRoomSerializer.create validated_data u now d =
       (Raise (ValidationError "A chat room requires at least two participants."), d)) ∧
  (∀ r d', ChatRoomSerializer.create validated_data u now d = (r, d') →
           d' = d ∧ ∀ room, r ≠ Ok room).
Proof.
  intros Hids.
  assert (users ≠ [] →
          ChatRoomSerializer.create validated_data u now d = (Raise TypeError, d)) as Hlisted.
  { destruct users as [|x users]; [done|]. intros _.
    apply (create_raises_on_instance _ _ _ _ x). rewrite Hids. set_solver. }
  assert (users = [] →
          ChatRoomSerializer.create validated_data u now d =
            if db_up d
            then (Raise (ValidationError "A chat room requires at least two participants."), d)
            else (Raise OperationalError, d)) as Hnone.
  { intros ->. by apply create_without_entries. }
  split_and!; [done| |].
  - intros Hu Hup. by rewrite Hnone, Hup.
  - intros r d'. destruct users as [|x users].
    + rewrite Hnone by done. destruct (db_up d); by intros [= <- <-].
    + rewrite Hlisted by done. by intros [= <- <-].
Qed.

End room_creation.

(** * The claims on the end-to-end scenario *)

Section scenario.
Import views consumers serializers demo.

#[local] Existing Instance runtime.
#[local] Existing Instance backend.

Ltac by_computation := vm_compute; first [reflexivity | discriminate | done].

Lemma markRead_reads_others_and_counts_witness :
  (∃ response d',
     MessageViewSet.mark_read (request bob "7") db0 = (Ok response, d') ∧
     status response = HTTP_200_OK ∧
     read_by 7 bob (db_messages db0) (db_messages d') ∧
     data response =
       MarkedData true (rows_changed (db_messages db0) (db_messages d'))) ∧
  (∃ env',
     ChatConsumer.mark_messages_as_read "7" alice (env_of session_alice db0) =
       (Ok true, env') ∧
     read_by 7 alice (db_messages db0) (db_messages (db env')) ∧
     self env' = session_alice ∧
     groups env' = groups (env_of session_alice db0) ∧
     published env' = []).
Proof.
  split.
  - apply (proj1 markRead_reads_others_and_counts (request bob "7") db0 "7" 7 room7);
      first [by_computation | compute_done].
  - apply (proj2 markRead_reads_others_and_counts "7" alice
             (env_of session_alice db0) 7); by_computation.
Defined.

(** C1 fails for the consumer: [mark_messages_as_read] answers [True]
    when it has changed one row and again when it has changed none, so
    what it returns is not the number of rows it changed. *)
Lemma mark_messages_as_read_answers_true_for_any_count :
  ∃ env1 env2,
    ChatConsumer.mark_messages_as_read "7" alice (env_of session_alice db0) =
      (Ok true, env1) ∧
    rows_changed (db_messages db0) (db_messages (db env1)) = 1%nat ∧
    ChatConsumer.mark_messages_as_read "7" alice env1 = (Ok true, env2) ∧
    rows_changed (db_messages (db env1)) (db_messages (db env2)) = 0%nat.
Proof.
  exists (env_of session_alice (set_messages [hi_from_alice; set_read orphan] db0)),
         (env_of session_alice (set_messages [hi_from_alice; set_read orphan] db0)).
  split_and!; by_computation.
Qed.

Lemma mark_read_twice_counts_zero_witness :
  MessageViewSet.mark_read (request bob "7") db_read_by_bob =
    (Ok {| status := HTTP_200_OK; data := MarkedData true 0 |}, db_read_by_bob).
Proof.
  apply (mark_read_twice_counts_zero (request bob "7") db0
           {| status := HTTP_200_OK; data := MarkedData true 2 |} db_read_by_bob);
    by_computation.
Defined.

Lemma list_reads_other_senders_witness :
  ∃ response d',
    MessageViewSet.list (request bob "7") db0 = (Ok response, d') ∧
    status response = HTTP_200_OK ∧
    read_by_listing 7 bob (db_messages db0) (db_messages d').
Proof.
  apply (list_reads_other_senders (request bob "7") db0 "7" 7 room7);
    first [by_computation | compute_done].
Defined.

(** C3 fails on a message without sender: bob, a participant of room 7,
    lists the room, and the message whose sender has been deleted is
    still unread afterwards. *)
Lemma list_leaves_message_without_sender_unread :
  ∃ response d',
    MessageViewSet.list (request bob "7") db0 = (Ok response, d') ∧
    status response = HTTP_200_OK ∧
    orphan ∈ db_messages d' ∧
    msg_room orphan = 7 ∧ msg_sender orphan ≠ Some (user_pk bob) ∧
    msg_is_read orphan = false.
Proof.
  exists {| status := HTTP_200_OK;
            data := MessageListData
                      (MessageSerializer <$> [set_read hi_from_alice; orphan]) |},
         (set_messages [set_read hi_from_alice; orphan] db0).
  split_and!; [by_computation|done| |done|done|done].
  simpl. apply list_elem_of_further, list_elem_of_here.
Qed.

Lemma list_empty_or_room_oldest_first_witness :
  MessageViewSet.list (request_without_room bob) db0 = (Ok empty_list, db0) ∧
  MessageViewSet.list (request bob "seven") db0 = (Ok empty_list, db0) ∧
  MessageViewSet.list (request bob "9") db0 = (Ok empty_list, db0) ∧
  MessageViewSet.list (request carol "7") db0 = (Ok empty_list, db0) ∧
  ∃ rows d',
    MessageViewSet.list (request bob "7") db0 =
      (Ok {| status := HTTP_200_OK;
             data := MessageListData (MessageSerializer <$> rows) |}, d') ∧
    rows ≡ₚ messages_of 7 (db_messages d') ∧
    StronglySorted orm.timestamp_le rows.
Proof.
  split_and!.
  - apply (proj1 (list_empty_or_room_oldest_first (request_without_room bob) db0)).
    left. by_computation.
  - apply (proj1 (proj2 (list_empty_or_room_oldest_first (request bob "seven") db0))
             "seven"); by_computation.
  - apply (proj1 (proj2 (proj2 (list_empty_or_room_oldest_first (request bob "9") db0)))
             "9" 9); by_computation.
  - apply (proj1 (proj2 (proj2 (proj2 (list_empty_or_room_oldest_first
             (request carol "7") db0)))) "7" 7 room7);
      first [by_computation | compute_done].
  - apply (proj2 (proj2 (proj2 (proj2 (list_empty_or_room_oldest_first
             (request bob "7") db0)))) "7" 7 room7);
      first [by_computation | compute_done].
Defined.


Lemma is_user_participant_guard_witness :
  let env := env_of (handshake (AuthUser bob)) db0 in
  (ChatConsumer.is_user_participant "7" bob env = (Ok true, env) ∧
   db_up db0 = true ∧
   ∃ R room, py_int "7" = Some R ∧ db_rooms db0 !! R = Some room ∧
             user_pk bob ∈ room_participants room) ∧
  (ChatConsumer.is_user_participant "7" carol env = (Ok false, env) ∧
   db_up db0 = true ∧
   ∃ R, py_int "7" = Some R ∧
        (db_rooms db0 !! R = None ∨
         ∃ room, db_rooms db0 !! R = Some room ∧
                 user_pk carol ∉ room_participants room)).
Proof.
  intros env. split.
  - assert (ChatConsumer.is_user_participant "7" bob env = (Ok true, env)) as E
      by by_computation.
    split; [exact E|].
    by apply (proj1 (proj2 (is_user_participant_guard "7" bob env (Ok true) env E))).
  - assert (ChatConsumer.is_user_participant "7" carol env = (Ok false, env)) as E
      by by_computation.
    split; [exact E|].
    by apply (proj1 (proj2 (proj2 (is_user_participant_guard "7" carol env (Ok false) env E)))).
Defined.

(** C2 fails when the lookup fails for another reason than a missing
    room: with the database out of reach the guard does not answer
    [False], the exception reaches the caller. *)
Lemma is_user_participant_raises_when_database_down :
  let env := env_of (handshake (AuthUser bob)) db_down in
  db_rooms (db env) !! 7 = Some room7 ∧
  ChatConsumer.is_user_participant "7" bob env = (Raise OperationalError, env) ∧
  (ChatConsumer.is_user_participant "7" bob env).1 ≠ Ok false.
Proof. split_and!; by_computation. Qed.


Lemma receive_other_type_as_message_witness :
  let env := env_of session_alice db0 in
  let gone := env_of session_alice db_without_alice in
  let message := row_offered db0 room7 alice "hi" 100 in
  ChatConsumer.receive (Some frame_typing) 100 env =
    ChatConsumer.receive (Some frame_hi) 100 env ∧
  conn (self (ChatConsumer.receive (Some frame_typing) 100 env).2) = conn (self env) ∧
  groups (ChatConsumer.receive (Some frame_typing) 100 env).2 = groups env ∧
  (∃ view env',
     ChatConsumer.receive (Some frame_typing) 100 env = (Ok tt, env') ∧
     db_messages (db env') = (db_messages (db env) ++ [message])%list ∧
     msg_room message = room_pk room7 ∧ msg_sender message = Some (user_pk alice) ∧
     msg_content message = py_str (dict_get typing_object "message") ∧
     msg_is_read message = false ∧
     published env' = (published env ++ [("chat_7", view)])%list ∧
     view_id view = msg_id message ∧
     view_content view = dict_get typing_object "message" ∧
     sent (self env') = sent (self env)) ∧
  ChatConsumer.receive (Some frame_typing) 100 gone =
    (Ok tt,
     with_self (λ c, set_sent (sent c ++ [ErrorFrame "Failed to save message."])%list c)
       gone).
Proof.
  intros env gone message.
  assert (frame_typing ≠ "") as H1 by by_computation.
  assert (frame_hi ≠ "") as H2 by by_computation.
  assert (json_loads frame_typing = Ok (JObj typing_object)) as H3 by by_computation.
  assert (json_loads frame_hi = Ok (JObj {[ "message" := JStr "hi" ]})) as H4
    by by_computation.
  assert (typing_object !! "type" ≠ Some (JStr "mark_read")) as H5 by by_computation.
  assert (({[ "message" := JStr "hi" ]} : gmap string json) !! "type" = None) as H6
    by by_computation.
  assert (typing_object !! "message" =
          ({[ "message" := JStr "hi" ]} : gmap string json) !! "message") as H7
    by by_computation.
  destruct (receive_other_type_as_message env 100 frame_typing frame_hi
              typing_object {[ "message" := JStr "hi" ]} H1 H2 H3 H4 H5 (or_introl H6) H7)
    as (Heq & Hconn & Hgroups & Hstore).
  destruct (receive_other_type_as_message gone 100 frame_typing frame_hi
              typing_object {[ "message" := JStr "hi" ]} H1 H2 H3 H4 H5 (or_introl H6) H7)
    as (_ & _ & _ & Hrefused).
  split_and!; [exact Heq|exact Hconn|exact Hgroups| |].
  - apply (Hstore alice "7" "chat_7" 7 room7); by_computation.
  - apply (Hrefused alice "7" "chat_7" 7 room7); try by_computation.
    exists IntegrityError. by_computation.
Defined.

(** C4 fails on a frame of unknown type that carries a message: alice's
    accepted session receives [{"type": "typing", "message": "hi"}], and
    the message is stored and published to the group. *)
Lemma receive_unknown_type_is_stored_and_published :
  let env := env_of session_alice db0 in
  json_loads frame_typing = Ok (JObj typing_object) ∧
  typing_object !! "type" = Some (JStr "typing") ∧
  ∃ env',
    ChatConsumer.receive (Some frame_typing) 100 env = (Ok tt, env') ∧
    db_messages (db env') =
      (db_messages db0 ++
         [{| msg_id := 3; msg_room := 7; msg_sender := Some 1; msg_content := "hi";
             msg_timestamp := 100; msg_is_read := false |}])%list ∧
    published env' =
      [("chat_7",
        {| view_id := 3;
           view_sender :=
             {| sender_id := 1; sender_email := "alice@example.com";
                sender_first_name := "Alice"; sender_last_name := "A" |};
           view_content := JStr "hi"; view_timestamp := 100; view_room := 7 |})].
Proof.
  intros env. split_and!; [by_computation..|].
  eexists. split_and!; by_computation.
Qed.

Lemma receive_empty_content_rejected_witness :
  let env := env_of session_alice db0 in
  ∃ env',
    ChatConsumer.receive (Some frame_empty) 100 env = (Ok tt, env') ∧
    sent (self env') = [ErrorFrame "Message content cannot be empty."] ∧
    db env' = db env ∧ published env' = published env ∧
    groups env' = groups env ∧ conn (self env') = Active.
Proof.
  intros env.
  destruct (ChatConsumer.receive (Some frame_empty) 100 env) as [r env'] eqn:E.
  destruct (receive_empty_content_rejected env 100 frame_empty
              {[ "message" := JStr "" ]} r env')
    as (-> & Hsent & _ & Hdb & Hpub & Hgroups & Hconn & _);
    [by_computation | by_computation | by_computation | right; by_computation | exact E |].
  by exists env'.
Defined.

Lemma create_raises_TypeError_on_listed_users_witness :
  ChatRoomSerializer.create
    {| participant_ids := Some [UserInstance alice]; name := ""; booking := None |}
    alice 5 db0 = (Raise TypeError, db0) ∧
  ChatRoomSerializer.create
    {| participant_ids := Some [UserInstance bob]; name := ""; booking := None |}
    alice 5 db0 = (Raise TypeError, db0) ∧
  ChatRoomSerializer.create
    {| participant_ids := None; name := ""; booking := None |} alice 5 db0 =
    (Raise (ValidationError "A chat room requires at least two participants."), db0).
Proof.
  split_and!.
  - refine (proj1 (create_raises_TypeError_on_listed_users
              {| participant_ids := Some [UserInstance alice]; name := ""; booking := None |}
              alice 5 db0 [alice] _) _); [reflexivity|discriminate].
  - refine (proj1 (create_raises_TypeError_on_listed_users
              {| participant_ids := Some [UserInstance bob]; name := ""; booking := None |}
              alice 5 db0 [bob] _) _); [reflexivity|discriminate].
  - refine (proj1 (proj2 (create_raises_TypeError_on_listed_users
              {| participant_ids := None; name := ""; booking := None |}
              alice 5 db0 [] _)) _ _); reflexivity.
Defined.

End scenario.
(** * Further properties of the code *)

(** ** views.py and serializers.py: the read state *)
Section read_state_more.
Context `{PyRuntime} `{DatabaseBackend}.
Import views serializers.

Lemma unread_from_other_senders_unread R u m :
  unread_from_other_senders R u m = true → msg_is_read m = false.
Proof. intros Hm. by apply unread_from_other_senders_spec in Hm as (_ & ? & _). Qed.

Lemma unread_from_other_senders_others R u m :
  unread_from_other_senders R u m = true → unread_from_others R u m = true.
Proof.
  rewrite unread_from_other_senders_spec, unread_from_others_spec.
  intros (? & ? & s & Hs & ?). split_and!; [done..|]. rewrite Hs. by intros [=].
Qed.

(** An update that selects less than an earlier one finds nothing to do. *)
Lemma mark_subsumed (cond cond' : Message → bool) (rows : list Message) :
  (∀ m, cond m = true → msg_is_read m = false) →
  (∀ m, cond' m = true → cond m = true) →
  mark cond' (mark cond rows) = mark cond rows.
Proof.
  intros Hc Hsub. unfold mark. rewrite <- list_fmap_compose.
  apply list_fmap_ext. intros _ m _. simpl.
  destruct (cond m) eqn:Hm.
  - destruct (cond' (set_read m)) eqn:Hm'; [|done].
    apply Hsub, Hc in Hm'. done.
  - destruct (cond' m) eqn:Hm'; [|done]. apply Hsub in Hm'. congruence.
Qed.

(** What [mark_read] still finds after a listing: the unread messages of
    the room that have no sender. *)
Lemma filter_others_after_listing R u rows :
  length (List.filter (unread_from_others R u)
            (mark (unread_from_other_senders R u) rows)) =
  length (List.filter (unread_without_sender R) rows).
Proof.
  unfold mark. induction rows as [|m rows IH]; [done|].
  rewrite fmap_cons. cbn [List.filter].
  destruct (unread_from_other_senders R u m) eqn:Hq.
  - assert (unread_from_others R u (set_read m) = false) as ->.
    { apply not_true_iff_false. by intros Hp%unread_from_others_unread. }
    assert (unread_without_sender R m = false) as ->; [|done].
    apply unread_from_other_senders_spec in Hq as (_ & _ & s & Hs & _).
    unfold unread_without_sender, orm.sender_isnull. rewrite Hs. simpl.
    by rewrite andb_false_r.
  - assert (unread_from_others R u m = unread_without_sender R m) as ->.
    { apply not_true_iff_false in Hq.
      destruct (unread_from_others R u m) eqn:Hp; symmetry.
      - apply unread_from_others_spec in Hp as (HR & Hr & Hs).
        unfold unread_without_sender, orm.room_id_is, orm.is_read_is, orm.sender_isnull.
        rewrite HR, Hr, Z.eqb_refl. simpl.
        destruct (msg_sender m) as [s|] eqn:Hs'; [|done].
        exfalso. apply Hq, unread_from_other_senders_spec.
        split_and!; [done..|]. exists s. split; [done|]. congruence.
      - apply not_true_iff_false. intros Hw. apply not_true_iff_false in Hp. apply Hp.
        unfold unread_without_sender, orm.room_id_is, orm.is_read_is, orm.sender_isnull in Hw.
        apply unread_from_others_spec.
        destruct (msg_is_read m), (msg_sender m); simpl in Hw;
          rewrite ?andb_false_r in Hw; try done.
        apply andb_true_iff in Hw as [Hw _]. apply andb_true_iff in Hw as [Hw _].
        by apply Z.eqb_eq in Hw. }
    destruct (unread_without_sender R m); simpl; by rewrite IH.
Qed.

(** [mark_read] changes the database on its way to 200 only. *)
Lemma mark_read_other_status request d response d' :
  MessageViewSet.mark_read request d = (Ok response, d') →
  status response ≠ HTTP_200_OK → d' = d.
Proof.
  unfold MessageViewSet.mark_read.
  destruct (str_truthy (req_query_params request !! "room")) eqn:Hs; simpl;
    [|by intros [= <- <-]].
  apply str_truthy_Some in Hs as (s & Hs & Hne). rewrite Hs. simpl.
  destruct (py_int s) as [R|] eqn:HR; [|by intros [= <- <-]].
  cbv [mbind M_bind try_except]. rewrite ChatRoom_get_run.
  destruct (db_up d) eqn:Hup; [|done].
  destruct (db_rooms d !! R) as [room|] eqn:Hroom; [|by intros [= <- <-]].
  unfold orm.user_in_participants.
  destruct (decide (user_pk (req_user request) ∈ room_participants room)) as [Hin|Hin].
  - rewrite bool_decide_true by done. simpl. cbv [mret M_ret].
    rewrite update_is_read_run by done. by intros [= <- <-].
  - rewrite bool_decide_false by done. by intros [= <- <-].
Qed.

(** X1. [mark_read] refuses with 400 when the [room] parameter is missing
    or no integer, with 404 when the room does not exist and with 403 when
    the caller is no participant of it; whenever its answer is not 200 the
    database is as before. *)
Theorem mark_read_refusals request d :
  let room := req_query_params request !! "room" in
  (room = None ∨ room = Some "" →
     MessageViewSet.mark_read request d =
       (Ok {| status := HTTP_400_BAD_REQUEST; data := ErrorData "Room ID is required" |}, d)) ∧
  (∀ s, room = Some s → s ≠ "" → py_int s = None →
     MessageViewSet.mark_read request d =
       (Ok {| status := HTTP_400_BAD_REQUEST;
              data := ErrorData "Invalid room ID format" |}, d)) ∧
  (∀ s R, room = Some s → s ≠ "" → py_int s = Some R → db_up d = true →
     db_rooms d !! R = None →
     MessageViewSet.mark_read request d =
       (Ok {| status := HTTP_404_NOT_FOUND; data := ErrorData "Chat room not found" |}, d)) ∧
  (∀ s R r, room = Some s → s ≠ "" → py_int s = Some R → db_up d = true →
     db_rooms d !! R = Some r →
     user_pk (req_user request) ∉ room_participants r →
     MessageViewSet.mark_read request d =
       (Ok {| status := HTTP_403_FORBIDDEN;
              data := ErrorData "You are not a participant in this chat room" |}, d)) ∧
  (∀ response d',
     MessageViewSet.mark_read request d = (Ok response, d') →
     status response ≠ HTTP_200_OK → d' = d).
Proof.
  intros room. subst room. unfold MessageViewSet.mark_read. split_and!.
  - by intros [-> | ->].
  - intros s -> Hne%String.eqb_neq Hs. simpl. rewrite Hne. simpl. by rewrite Hs.
  - intros s R -> Hne%String.eqb_neq HR Hup Hroom. simpl. rewrite Hne. simpl.
    rewrite HR. cbv [mbind M_bind try_except]. by rewrite ChatRoom_get_run, Hup, Hroom.
  - intros s R r -> Hne%String.eqb_neq HR Hup Hroom Hin. simpl. rewrite Hne. simpl.
    rewrite HR. cbv [mbind M_bind try_except]. rewrite ChatRoom_get_run, Hup, Hroom.
    unfold orm.user_in_participants. by rewrite bool_decide_false.
  - intros response d'. fold (MessageViewSet.mark_read request). apply mark_read_other_status.
Qed.

(** X2. The action [mark_read] admits a caller to a room exactly when the
    live channel's guard does: for a room id that is not empty,
    [mark_read] answers 200 if and only if [is_user_participant] answers
    [True]. *)
Theorem mark_read_admits_as_the_guard request s env :
  req_query_params request !! "room" = Some s → s ≠ "" →
  (∃ response d',
     MessageViewSet.mark_read request (consumers.db env) = (Ok response, d') ∧
     status response = HTTP_200_OK) ↔
  (consumers.ChatConsumer.is_user_participant s (req_user request) env).1 = Ok true.
Proof.
  intros Hs Hne. rewrite is_user_participant_run. simpl. split.
  - intros (response & d' & Hrun & H200).
    destruct (mark_read_200_inv _ _ _ _ Hrun H200)
      as (s' & R & room & Hs' & _ & HR & Hup & Hroom & Hin).
    assert (s' = s) as -> by congruence.
    rewrite HR, Hup, Hroom. by rewrite bool_decide_true.
  - destruct (py_int s) as [R|] eqn:HR; [|done].
    destruct (db_up (consumers.db env)) eqn:Hup; [|done].
    destruct (db_rooms (consumers.db env) !! R) as [room|] eqn:Hroom; [|done].
    intros [= Hin%bool_decide_eq_true_1].
    eexists _, _. split; [by eapply mark_read_of_participant|done].
Qed.

(** X3. A listing repeated right away answers as the first did and changes
    nothing more. *)
Theorem list_twice request d response d' :
  MessageViewSet.list request d = (Ok response, d') →
  MessageViewSet.list request d' = (Ok response, d').
Proof.
  intros Hrun.
  destruct (list_cases _ _ _ _ Hrun)
    as [[-> ->]|(s & R & room & Hs & Hne & HR & Hup & Hroom & Hin)]; [done|].
  rewrite (list_of_participant _ _ _ _ _ Hs Hne HR Hup Hroom Hin) in Hrun.
  injection Hrun as <- <-.
  rewrite (list_of_participant _ _ s R room) by done. simpl.
  by rewrite mark_idem by apply unread_from_other_senders_unread.
Qed.

(** X4. After [mark_read] has answered 200, a listing by the same caller
    for the same room succeeds and changes no row: what the listing would
    mark is already read. *)
Theorem list_after_mark_read_changes_nothing request d response d' :
  MessageViewSet.mark_read request d = (Ok response, d') →
  status response = HTTP_200_OK →
  ∃ listing,
    MessageViewSet.list request d' = (Ok listing, d') ∧
    status listing = HTTP_200_OK.
Proof.
  intros Hrun H200.
  destruct (mark_read_200_inv _ _ _ _ Hrun H200)
    as (s & R & room & Hs & Hne & HR & Hup & Hroom & Hin).
  rewrite (mark_read_of_participant _ _ _ _ _ Hs Hne HR Hup Hroom Hin) in Hrun.
  injection Hrun as _ <-.
  rewrite (list_of_participant _ _ s R room) by done. simpl.
  rewrite mark_subsumed
    by (apply unread_from_others_unread || apply unread_from_other_senders_others).
  by eexists.
Qed.

(** X5. After a listing, [mark_read] by the same caller for the same room
    marks exactly the messages the listing has passed over: its count is
    the number of messages of the room that were unread and without sender
    before the listing. *)
Theorem mark_read_after_list_counts_senderless request d listing d1 response d2 :
  MessageViewSet.list request d = (Ok listing, d1) →
  MessageViewSet.mark_read request d1 = (Ok response, d2) →
  status response = HTTP_200_OK →
  ∃ s R,
    req_query_params request !! "room" = Some s ∧ py_int s = Some R ∧
    data response =
      MarkedData true (length (List.filter (unread_without_sender R) (db_messages d))).
Proof.
  intros Hlist Hrun H200.
  destruct (mark_read_200_inv _ _ _ _ Hrun H200)
    as (s & R & room & Hs & Hne & HR & Hup & Hroom & Hin).
  rewrite (mark_read_of_participant _ _ _ _ _ Hs Hne HR Hup Hroom Hin) in Hrun.
  injection Hrun as <- _. exists s, R. split_and!; [done..|]. simpl.
  destruct (list_cases _ _ _ _ Hlist)
    as [[-> ->]|(s' & R' & room' & Hs' & Hne' & HR' & Hup' & Hroom' & Hin')].
  - rewrite (list_of_participant _ _ _ _ _ Hs Hne HR Hup Hroom Hin) in Hlist.
    injection Hlist as _ Hd. apply (f_equal db_messages) in Hd. simpl in Hd.
    rewrite <- (filter_others_after_listing R (req_user request)). by rewrite Hd.
  - assert (s' = s) as -> by congruence. assert (R' = R) as -> by congruence.
    rewrite (list_of_participant _ _ _ _ _ Hs' Hne' HR' Hup' Hroom' Hin') in Hlist.
    injection Hlist as _ <-. simpl. by rewrite filter_others_after_listing.
Qed.

End read_state_more.

(** ** views.py, serializers.py and permissions.py: rooms *)
Section rooms_more.
Context `{PyRuntime} `{DatabaseBackend}.
Import views serializers permissions.

Lemma count_run (q : orm.QuerySet) (d : DB) :
  orm.qs_none q = false → db_up d = true →
  orm.count q d = (Ok (length (List.filter (orm.qs_where q) (db_messages d))), d).
Proof.
  intros Hn Hup. unfold orm.count, orm.select. rewrite Hn.
  cbv [mbind M_bind mret M_ret orm.connection get]. by rewrite Hup.
Qed.

Lemma participants_all_run (room : ChatRoom) (d : DB) :
  orm.participants_all room d =
    if db_up d
    then (Ok (default ∅ (room_participants <$> db_rooms d !! room_pk room)), d)
    else (Raise OperationalError, d).
Proof.
  cbv [orm.participants_all mbind M_bind mret M_ret orm.connection get].
  by destruct (db_up d).
Qed.

(** X6. The unread count a room shows to a participant is the number
    [mark_read] answers with for that participant and room, and after that
    [mark_read] the count is 0. *)
Theorem unread_count_is_what_mark_read_marks request d s obj room :
  req_query_params request !! "room" = Some s → s ≠ "" →
  py_int s = Some (room_pk obj) → db_up d = true →
  db_rooms d !! room_pk obj = Some room →
  user_pk (req_user request) ∈ room_participants room →
  ∃ n d',
    ChatRoomSerializer.get_unread_count obj (Some (req_user request)) d = (Ok n, d) ∧
    MessageViewSet.mark_read request d =
      (Ok {| status := HTTP_200_OK; data := MarkedData true n |}, d') ∧
    ChatRoomSerializer.get_unread_count obj (Some (req_user request)) d' = (Ok 0%nat, d').
Proof.
  intros Hs Hne HR Hup Hroom Hin. eexists _, _. split_and!.
  - unfold ChatRoomSerializer.get_unread_count. by rewrite count_run.
  - by rewrite (mark_read_of_participant _ _ _ _ _ Hs Hne HR Hup Hroom Hin).
  - unfold ChatRoomSerializer.get_unread_count. rewrite count_run by done. simpl.
    change (λ m, true && orm.room_id_is (room_pk obj) m && orm.is_read_is false m
                 && negb (orm.sender_is (req_user request) m))
      with (unread_from_others (room_pk obj) (req_user request)).
    by rewrite mark_nothing_left by apply unread_from_others_unread.
Qed.

(** X7. The field [last_message] of a room is taken with [messages.first]
    under the ordering by [timestamp]: it is a message of the room than
    which no message of the room is older, and it is absent exactly when
    the room has no message. *)
Theorem last_message_is_oldest obj d o d' :
  ChatRoomSerializer.last_message obj d = (Ok o, d') →
  d' = d ∧
  match o with
  | Some m =>
      m ∈ db_messages d ∧ msg_room m = room_pk obj ∧
      ∀ m', m' ∈ db_messages d → msg_room m' = room_pk obj →
            msg_timestamp m ≤ msg_timestamp m'
  | None => ∀ m', m' ∈ db_messages d → msg_room m' ≠ room_pk obj
  end.
Proof.
  unfold ChatRoomSerializer.last_message, orm.first. cbv [mbind M_bind].
  destruct (db_up d) eqn:Hup.
  - rewrite fetch_run by done. cbv [mret M_ret]. intros [= <- <-]. split; [done|].
    simpl.
    change (List.filter _ (db_messages d)) with (messages_of (room_pk obj) (db_messages d)).
    pose proof (StronglySorted_merge_sort orm.timestamp_le
                  (messages_of (room_pk obj) (db_messages d))) as Hsorted.
    pose proof (merge_sort_Permutation orm.timestamp_le
                  (messages_of (room_pk obj) (db_messages d))) as Hperm.
    unfold orm.order_by_timestamp.
    destruct (merge_sort orm.timestamp_le (messages_of (room_pk obj) (db_messages d)))
      as [|m rest]; simpl.
    + intros m' Hm' HR.
      assert (m' ∈ messages_of (room_pk obj) (db_messages d)) as Hin
        by by apply messages_of_spec.
      rewrite <- Hperm in Hin. by apply elem_of_nil in Hin.
    + assert (m ∈ messages_of (room_pk obj) (db_messages d)) as Hm
        by (rewrite <- Hperm; apply list_elem_of_here).
      apply messages_of_spec in Hm as [Hm HmR]. split_and!; [done..|].
      intros m' Hm' HR.
      assert (m' ∈ m :: rest) as Hin by (rewrite Hperm; by apply messages_of_spec).
      apply StronglySorted_inv in Hsorted as [_ Hall].
      apply elem_of_cons in Hin as [->|Hin]; [unfold orm.timestamp_le in *; lia|].
      rewrite Forall_forall in Hall. by apply Hall.
  - unfold orm.fetch. simpl. cbv [mbind M_bind orm.connection]. by rewrite Hup.
Qed.

(** X8. The room listing shows a caller the rooms that have the caller
    among their participants and no other, newest first; with the room
    table keyed by primary key no room is shown twice. *)
Theorem rooms_listed_are_the_callers request d rooms d' :
  ChatRoomViewSet.get_queryset request d = (Ok rooms, d') →
  d' = d ∧
  (∀ room, room ∈ rooms ↔
       ∃ pk, db_rooms d !! pk = Some room ∧
             user_pk (req_user request) ∈ room_participants room) ∧
  StronglySorted (λ r1 r2, room_created_at r2 ≤ room_created_at r1) rooms ∧
  (rooms_by_key d → NoDup (room_pk <$> rooms)).
Proof.
  unfold ChatRoomViewSet.get_queryset, orm.ChatRoom_filter_participants.
  cbv [mbind M_bind mret M_ret orm.connection get].
  destruct (db_up d); [|done]. intros [= <- <-]. split; [done|].
  set (shown := List.filter _ _).
  assert (∀ room, room ∈ shown ↔
            ∃ pk, db_rooms d !! pk = Some room ∧
                  user_pk (req_user request) ∈ room_participants room) as Hshown.
  { intros room. unfold shown. rewrite list_elem_of_In, filter_In, <- list_elem_of_In.
    rewrite list_elem_of_fmap. unfold orm.user_in_participants.
    rewrite bool_decide_eq_true. split.
    - intros [([pk r] & -> & Hin%elem_of_map_to_list) Hp]. by exists pk.
    - intros (pk & Hpk & Hp). split; [|done]. exists (pk, room).
      split; [done|]. by apply elem_of_map_to_list. }
  split_and!.
  - intros room. by rewrite merge_sort_Permutation.
  - assert (Transitive orm.created_at_ge)
      by (intros r1 r2 r3; unfold orm.created_at_ge; lia).
    assert (Total orm.created_at_ge)
      by (intros r1 r2; unfold orm.created_at_ge; lia).
    apply (StronglySorted_merge_sort orm.created_at_ge).
  - intros Hkey. rewrite merge_sort_Permutation.
    assert (NoDup (room_pk <$> (map_to_list (db_rooms d)).*2)) as Hnodup.
    { assert (room_pk <$> (map_to_list (db_rooms d)).*2 = (map_to_list (db_rooms d)).*1)
        as ->; [|apply NoDup_fst_map_to_list].
      rewrite <- list_fmap_compose. apply list_fmap_ext.
      intros i [pk r] Hi. simpl. apply Hkey.
      apply elem_of_map_to_list, list_elem_of_lookup. by exists i. }
    eapply sublist_NoDup; [exact Hnodup|].
    apply fmap_sublist. unfold shown.
    generalize ((map_to_list (db_rooms d)).*2). intros l.
    induction l as [|r l IH]; simpl; [done|].
    destruct (orm.user_in_participants _ r); by constructor.
Qed.

(** X9. For a room of the database, the object permission on the room, the
    object permission on a message of the room and the live channel's
    guard give the same answer, [True] exactly for the participants the
    database holds for the room; none of them changes the database, and an
    object that is neither a room nor a message is refused. *)
Theorem object_permission_agrees_with_guard u room m room_id env stored :
  py_int room_id = Some (room_pk room) → msg_room m = room_pk room →
  db_rooms (consumers.db env) !! room_pk room = Some stored →
  room_pk stored = room_pk room →
  let guard := consumers.ChatConsumer.is_user_participant room_id u env in
  IsChatRoomParticipant.has_object_permission u (RoomObj room) (consumers.db env) =
    (guard.1, consumers.db env) ∧
  IsChatRoomParticipant.has_object_permission u (MessageObj m) (consumers.db env) =
    (guard.1, consumers.db env) ∧
  (db_up (consumers.db env) = true →
     guard.1 = Ok (bool_decide (user_pk u ∈ room_participants stored))) ∧
  IsChatRoomParticipant.has_object_permission u OtherObj (consumers.db env) =
    (Ok false, consumers.db env).
Proof.
  intros HR Hm Hstored Hkey guard. subst guard.
  rewrite is_user_participant_run, HR, Hstored. simpl.
  unfold IsChatRoomParticipant.has_object_permission. cbv [mbind M_bind].
  rewrite ChatRoom_get_run, !participants_all_run, Hm, Hstored.
  destruct (db_up (consumers.db env)) eqn:Hup; [|done].
  rewrite participants_all_run, Hup, Hkey, Hstored. done.
Qed.

End rooms_more.

(** ** consumers.py: frames *)
Section frames_more.
Context `{PyRuntime} `{DatabaseBackend}.
Import consumers.

Lemma receive_mark_read env now text d :
  text ≠ "" → json_loads text = Ok (JObj d) →
  d !! "type" = Some (JStr "mark_read") →
  ChatConsumer.receive (Some text) now env =
    (ChatConsumer.mark_messages_read;; mret tt) env.
Proof.
  intros Hne%String.eqb_neq Hj Ht. unfold ChatConsumer.receive. simpl.
  rewrite Hne. simpl. rewrite Hj. unfold dict_get_default. rewrite Ht. simpl.
  cbv [mbind M_bind mret M_ret].
  by destruct (ChatConsumer.mark_messages_read env) as [[[]|e] env1].
Qed.

(** X10. What [receive] does with a text that is no JSON object goes by
    what [json.loads] does with it.  When [json.loads] raises
    [JSONDecodeError], the sender is answered with the error frame for
    invalid JSON and nothing else happens.  Any other exception of
    [json.loads] ([RecursionError] on a text nested too deep, [ValueError]
    on a number of too many digits) is not caught: the method stops with
    it, and nothing is answered, stored, published or changed.  A text
    that is JSON but no object (a list, a number, a string, null) is not
    answered either: the method stops with [AttributeError], again with
    nothing changed. *)
Theorem receive_text_that_is_no_object env now text :
  text ≠ "" →
  (json_loads text = Raise JSONDecodeError →
     ChatConsumer.receive (Some text) now env =
       (Ok tt, with_self (λ c, set_sent (sent c ++ [ErrorFrame "Invalid JSON format."])%list c)
                 env)) ∧
  (∀ e, json_loads text = Raise e → e ≠ JSONDecodeError →
     ChatConsumer.receive (Some text) now env = (Raise e, env)) ∧
  (∀ v, json_loads text = Ok v → (∀ d, v ≠ JObj d) →
     ChatConsumer.receive (Some text) now env = (Raise AttributeError, env)).
Proof.
  intros Hne%String.eqb_neq. unfold ChatConsumer.receive. simpl. rewrite Hne. simpl.
  split_and!.
  - by intros ->.
  - intros e -> He. by destruct e.
  - intros v -> Hv. destruct v; try done. by destruct (Hv d).
Qed.

(** X11. On an accepted session a frame of type ['mark_read'] is answered
    to the requester with one [read_status] frame and is never published,
    whatever else the frame holds: with status [success] when the update
    ran, the room then being read by the session's user, and with status
    [error], the database as before, when the room id is no integer or
    the database cannot be reached. *)
Theorem receive_mark_read_frame env now text d u rid r env' :
  text ≠ "" → json_loads text = Ok (JObj d) →
  d !! "type" = Some (JStr "mark_read") →
  user (self env) = Some (AuthUser u) → room_id (self env) = Some (Some rid) →
  ChatConsumer.receive (Some text) now env = (r, env') →
  r = Ok tt ∧ published env' = published env ∧ groups env' = groups env ∧
  conn (self env') = conn (self env) ∧
  ((∃ R, py_int rid = Some R ∧ db_up (db env) = true ∧
         sent (self env') =
           (sent (self env) ++ [ReadStatusFrame "success" "Messages marked as read"])%list ∧
         read_by R u (db_messages (db env)) (db_messages (db env'))) ∨
   ((py_int rid = None ∨ db_up (db env) = false) ∧
    sent (self env') =
      (sent (self env) ++ [ReadStatusFrame "error" "Failed to mark messages as read"])%list ∧
    db env' = db env)).
Proof.
  intros Hne Hj Ht Hu Hrid. rewrite (receive_mark_read env now text d) by done.
  unfold ChatConsumer.mark_messages_read. cbv [mbind M_bind self_room_id self_user].
  rewrite Hrid, Hu, mark_messages_as_read_run.
  destruct (py_int rid) as [R|] eqn:HR.
  - destruct (db_up (db env)) eqn:Hup.
    + intros [= <- <-]. simpl. split_and!; [done..|]. left. exists R.
      split_and!; [done..|]. apply mark_read_by.
    + intros [= <- <-]. simpl. split_and!; [done..|]. right. split_and!; auto.
  - intros [= <- <-]. simpl. split_and!; [done..|]. right. split_and!; auto.
Qed.

(** X12. On an accepted session a send frame with content, when the
    session's room id is no integer, the database cannot be reached or the
    room is not (or no longer) in it, is answered with the frame for a
    failed save; nothing is stored and nothing is published. *)
Theorem receive_save_failure env now text d u rid r env' :
  text ≠ "" → json_loads text = Ok (JObj d) →
  d !! "type" ≠ Some (JStr "mark_read") →
  truthy (dict_get d "message") = true →
  user (self env) = Some (AuthUser u) → room_id (self env) = Some (Some rid) →
  (py_int rid = None ∨ db_up (db env) = false ∨
   ∃ R, py_int rid = Some R ∧ db_rooms (db env) !! R = None) →
  ChatConsumer.receive (Some text) now env = (r, env') →
  r = Ok tt ∧
  sent (self env') = (sent (self env) ++ [ErrorFrame "Failed to save message."])%list ∧
  db env' = db env ∧ published env' = published env ∧ groups env' = groups env.
Proof.
  intros Hne Hj Ht Htruthy Hu Hrid Hfail.
  rewrite (receive_content env now text d) by done. rewrite Htruthy. simpl.
  cbv [mbind M_bind self_room_id self_user]. rewrite Hrid, Hu, save_message_run.
  destruct Hfail as [-> | [Hup | (R & -> & Hroom)]].
  - by intros [= <- <-].
  - destruct (py_int rid); rewrite ?Hup; by intros [= <- <-].
  - rewrite Hroom. destruct (db_up (db env)); by intros [= <- <-].
Qed.

(** What a frame can do, path by path. *)
Lemma receive_outcomes text_data now env r env' :
  ChatConsumer.receive text_data now env = (r, env') →
  env' = env ∨
  (∃ f, sent (self env') = (sent (self env) ++ [f])%list ∧
        published env' = published env ∧
        (db env' = db env ∨
         ∃ R u, db env' = set_messages (mark (unread_from_others R u)
                                          (db_messages (db env))) (db env))) ∨
  (∃ message,
     db_messages (db env') = (db_messages (db env) ++ [message])%list ∧
     db_up (db env') = db_up (db env) ∧ db_users (db env') = db_users (db env) ∧
     db_rooms (db env') = db_rooms (db env) ∧
     sent (self env') = sent (self env) ∧
     ((∃ g v, r = Ok tt ∧ room_group_name (self env) = Some g ∧
              published env' = (published env ++ [(g, v)])%list ∧
              view_id v = msg_id message ∧ view_room v = msg_room message) ∨
      (r = Raise AttributeError ∧ room_group_name (self env) = None ∧
       published env' = published env))).
Proof.
  unfold ChatConsumer.receive.
  destruct (negb (str_truthy text_data)); [intros [= <- <-]; by left|].
  destruct (json_loads (default "" text_data)) as [v|e]; cbv [mbind M_bind];
    [|destruct e; first [intros [= <- <-]; by left
                        |intros [= <- <-]; right; left; eexists;
                         split_and!; [done..|by left]]].
  destruct v as [| | | | | |d]; try (intros [= <- <-]; by left).
  destruct (json_eq_str _ _).
  - unfold ChatConsumer.mark_messages_read. cbv [mbind M_bind self_room_id self_user].
    destruct (room_id (self env)) as [[rid|]|]; try (intros [= <- <-]; by left).
    destruct (user (self env)) as [[| |u]|]; try (intros [= <- <-]; by left).
    rewrite mark_messages_as_read_run.
    destruct (py_int rid) as [R|];
      [|intros [= <- <-]; right; left; eexists; split_and!; [done..|by left]].
    destruct (db_up (db env));
      [|intros [= <- <-]; right; left; eexists; split_and!; [done..|by left]].
    intros [= <- <-]. right; left. eexists. split_and!; [done..|]. right. by exists R, u.
  - cbv [mret M_ret].
    destruct (negb (truthy (dict_get d "message")));
      [intros [= <- <-]; right; left; eexists; split_and!; [done..|by left]|].
    cbv [mbind M_bind self_room_id self_user].
    destruct (room_id (self env)) as [[rid|]|]; try (intros [= <- <-]; by left).
    destruct (user (self env)) as [[| |u]|]; try (intros [= <- <-]; by left).
    rewrite save_message_run.
    destruct (py_int rid) as [R|];
      [|intros [= <- <-]; right; left; eexists; split_and!; [done..|by left]].
    destruct (db_up (db env)) eqn:Hup;
      [|intros [= <- <-]; right; left; eexists; split_and!; [done..|by left]].
    destruct (db_rooms (db env) !! R) as [room|];
      [|intros [= <- <-]; right; left; eexists; split_and!; [done..|by left]].
    cbv zeta.
    destruct (rejects (db env) _) as [e|];
      [intros [= <- <-]; right; left; eexists; split_and!; [done..|by left]|].
    unfold self_room_group_name. simpl.
    destruct (room_group_name (self env)) as [g|] eqn:Hg; intros [= <- <-];
      right; right; eexists; simpl; (split_and!; [done..|]).
    + left. eexists _, _. split_and!; done.
    + by right.
Qed.

(** X13. Whatever a frame holds, [receive] deletes and rewrites no
    message: every row of the message table is still there, in place, as
    it was or turned read, followed by at most one new row; the users and
    the rooms are as before. *)
Theorem receive_keeps_messages text_data now env r env' :
  ChatConsumer.receive text_data now env = (r, env') →
  (∃ added, persists (db_messages (db env)) (db_messages (db env')) added ∧
            (length added ≤ 1)%nat) ∧
  db_users (db env') = db_users (db env) ∧ db_rooms (db env') = db_rooms (db env).
Proof.
  assert (∀ rows : list Message, Forall2 (λ m m', m' = m ∨ m' = set_read m) rows rows)
    as Hrefl by (intros rows; apply Forall2_same_length_lookup; split; [done|];
                 intros ????? ; left; congruence).
  intros [->|[(f & _ & _ & [->|(R & u & ->)])|(message & -> & _ & -> & -> & _)]]%receive_outcomes.
  - split; [|done]. exists []. split; [|simpl; lia].
    exists (db_messages (db env)). by rewrite app_nil_r.
  - split; [|done]. exists []. split; [|simpl; lia].
    exists (db_messages (db env)). by rewrite app_nil_r.
  - split; [|done]. exists []. split; [|simpl; lia]. eexists. rewrite app_nil_r.
    split; [done|]. simpl. eapply Forall2_impl; [apply mark_Forall2|].
    intros m m' Hm. simpl in Hm. destruct (unread_from_others R u m); auto.
  - split; [|done]. exists [message]. split; [|simpl; lia]. by eexists.
Qed.

(** X14. [receive] publishes nothing it has not stored: what is published
    to the channel layer grows by at most one event, and when it does, the
    event went to the session's own group, the message it shows is the one
    row added to the table, and no frame was written to the socket. *)
Theorem receive_publishes_what_it_stored text_data now env r env' :
  ChatConsumer.receive text_data now env = (r, env') →
  published env' = published env ∨
  ∃ g v message,
    room_group_name (self env) = Some g ∧
    published env' = (published env ++ [(g, v)])%list ∧
    db_messages (db env') = (db_messages (db env) ++ [message])%list ∧
    view_id v = msg_id message ∧ view_room v = msg_room message ∧
    sent (self env') = sent (self env).
Proof.
  intros [->|[(f & _ & -> & _)|(message & Hm & _ & _ & _ & Hsent & Hpub)]]%receive_outcomes;
    [by left..|].
  destruct Hpub as [(g & v & _ & Hg & Hp & Hid & Hroom)|(_ & _ & ->)]; [|by left].
  right. by exists g, v, message.
Qed.

(** X20. [save_message] never raises and touches nothing but the table
    of messages.  It answers the row it has added, the row then being the
    last of the table, when the room id is an integer, the database can be
    reached, the room is in it and the database takes the row; in every
    other case, the refusal of the row by the database included, it
    answers [None] and leaves everything as it is. *)
Theorem save_message_stores_or_answers_None rid u content now env r env' :
  ChatConsumer.save_message rid u content now env = (r, env') →
  self env' = self env ∧ groups env' = groups env ∧ published env' = published env ∧
  ((∃ R room,
      py_int rid = Some R ∧ db_up (db env) = true ∧ db_rooms (db env) !! R = Some room ∧
      let message := row_offered (db env) room u (py_str content) now in
      rejects (db env) message = None ∧ r = Ok (Some message) ∧
      db_messages (db env') = (db_messages (db env) ++ [message])%list ∧
      db_users (db env') = db_users (db env) ∧ db_rooms (db env') = db_rooms (db env)) ∨
   (r = Ok None ∧ env' = env ∧
    (py_int rid = None ∨ db_up (db env) = false ∨
     (∃ R, py_int rid = Some R ∧ db_rooms (db env) !! R = None) ∨
     ∃ R room,
       py_int rid = Some R ∧ db_rooms (db env) !! R = Some room ∧
       is_Some (rejects (db env) (row_offered (db env) room u (py_str content) now))))).
Proof.
  rewrite save_message_run.
  destruct (py_int rid) as [R|] eqn:HR;
    [|intros [= <- <-]; split_and!; [done..|]; right; split_and!; auto].
  destruct (db_up (db env)) eqn:Hup;
    [|intros [= <- <-]; split_and!; [done..|]; right; split_and!; auto].
  destruct (db_rooms (db env) !! R) as [room|] eqn:Hroom;
    [|intros [= <- <-]; split_and!; [done..|]; right; split_and!; [done..|];
      right; right; left; by exists R].
  cbv zeta.
  destruct (rejects (db env) _) as [e|] eqn:Hrej; intros [= <- <-].
  - split_and!; [done..|]. right. split_and!; [done..|].
    right; right; right. exists R, room. by rewrite Hrej.
  - split_and!; [done..|]. left. exists R, room. by split_and!.
Qed.

End frames_more.

(** ** consumers.py: the connection *)
Section connection_more.
Context `{PyRuntime} `{DatabaseBackend}.
Import consumers.

(** [connect] refuses (or stops with the guard's exception) without
    touching the groups and the group name, or accepts as described. *)
Lemma connect_cases env r env' :
  ChatConsumer.connect env = (r, env') →
  (groups env' = groups env ∧
   room_group_name (self env') = room_group_name (self env) ∧
   channel_name (self env') = channel_name (self env) ∧
   (r = Ok tt → conn (self env') = Closed)) ∨
  (r = Ok tt ∧ conn (self env') = Active ∧
   channel_name (self env') = channel_name (self env) ∧
   ∃ u rid,
     scope_user (self env) = AuthUser u ∧ scope_room_id (self env) = Some rid ∧
     user (self env') = Some (AuthUser u) ∧ room_id (self env') = Some (Some rid) ∧
     room_group_name (self env') = Some ("chat_" +:+ rid) ∧
     groups env' =
       <["chat_" +:+ rid := {[ channel_name (self env) ]} ∪
                            default ∅ (groups env !! ("chat_" +:+ rid))]> (groups env) ∧
     db env' = db env ∧ published env' = published env ∧
     sent (self env') = sent (self env)).
Proof.
  unfold ChatConsumer.connect. cbv [mbind M_bind get modify].
  destruct (scope_user (self env)) as [| |u] eqn:Hu;
    [intros [= <- <-]; by left..|].
  destruct (scope_room_id (self env)) as [rid|] eqn:Hr; simpl;
    [|intros [= <- <-]; by left].
  destruct (negb (rid =? ""))%string; simpl; [|intros [= <- <-]; by left].
  rewrite is_user_participant_run. simpl.
  destruct (match py_int rid with Some _ => _ | None => _ end) as [[|]|e];
    simpl; intros [= <- <-]; [|by left..].
  right. split_and!; [done..|]. exists u, rid. by split_and!.
Qed.

(** X15. An accepted connection has joined exactly one group, the one
    named [chat_] followed by the room id as the route gave it: its
    channel is added to that group, every other group is as before, also
    the group of another spelling of the same room number, and the
    session keeps the user, the room id and the group name. *)
Theorem connect_joins_the_group_of_its_room_id env env' :
  ChatConsumer.connect env = (Ok tt, env') → conn (self env') = Active →
  ∃ u rid,
    scope_user (self env) = AuthUser u ∧ scope_room_id (self env) = Some rid ∧
    user (self env') = Some (AuthUser u) ∧ room_id (self env') = Some (Some rid) ∧
    room_group_name (self env') = Some ("chat_" +:+ rid) ∧
    membersOf ("chat_" +:+ rid) env' =
      {[ channel_name (self env) ]} ∪ membersOf ("chat_" +:+ rid) env ∧
    (∀ g, g ≠ "chat_" +:+ rid → groups env' !! g = groups env !! g) ∧
    (∀ rid', rid' ≠ rid →
       membersOf ("chat_" +:+ rid') env' = membersOf ("chat_" +:+ rid') env).
Proof.
  intros [(_ & _ & _ & Hclosed)|(_ & _ & _ & u & rid & Hu & Hr & Hu' & Hr' & Hg & Hgroups & _)]
    %connect_cases Hconn.
  { rewrite Hclosed in Hconn; done. }
  exists u, rid. split_and!; [done..| | |].
  - unfold membersOf. rewrite Hgroups. by rewrite lookup_insert_eq.
  - intros g Hne. rewrite Hgroups. by rewrite lookup_insert_ne.
  - intros rid' Hne. unfold membersOf. rewrite Hgroups.
    rewrite lookup_insert_ne; [done|]. simpl. intros [=]. done.
Qed.

(** X16. [disconnect] answers normally and touches nothing but the
    groups.  Without a group name (the connection was never accepted) it
    does nothing at all; with one it takes the session's channel out of
    that group and leaves the other channels of the group and every other
    group as they are.  A second [disconnect] changes nothing. *)
Theorem disconnect_leaves_the_group env r env' :
  ChatConsumer.disconnect env = (r, env') →
  r = Ok tt ∧ self env' = self env ∧ db env' = db env ∧
  published env' = published env ∧
  (room_group_name (self env) = None → env' = env) ∧
  (∀ g, room_group_name (self env) = Some g →
     membersOf g env' = membersOf g env ∖ {[ channel_name (self env) ]} ∧
     ∀ g', g' ≠ g → groups env' !! g' = groups env !! g') ∧
  ChatConsumer.disconnect env' = (Ok tt, env').
Proof.
  unfold ChatConsumer.disconnect. cbv [mbind M_bind get mret M_ret group_discard modify].
  destruct (room_group_name (self env)) as [g|] eqn:Hg; intros [= <- <-]; simpl;
    rewrite ?Hg; (split_and!; [done..| | |]); try done.
  - intros _ [= <-]. split.
    + unfold membersOf. simpl. rewrite lookup_alter_eq.
      destruct (groups env !! g); simpl; [done|set_solver].
    + intros g' Hne. by rewrite lookup_alter_ne.
  - f_equal. destruct env as [c d gs p]. simpl in *. f_equal.
    apply map_eq. intros g'. destruct (decide (g' = g)) as [->|Hne].
    + rewrite !lookup_alter_eq. destruct (gs !! g); simpl; [|done].
      f_equal. set_solver.
    + by rewrite !lookup_alter_ne.
Qed.

(** X17. A connection attempt on a new consumer followed by the
    [disconnect] that ends it leaves every group with the channels it had,
    the consumer's own channel apart, which after an accepted connection
    is no longer in the group of its room; after a refused attempt the
    groups are exactly as they were before it. *)
Theorem connect_then_disconnect env r env1 env2 :
  room_group_name (self env) = None →
  ChatConsumer.connect env = (r, env1) →
  ChatConsumer.disconnect env1 = (Ok tt, env2) →
  (∀ g c, c ≠ channel_name (self env) → c ∈ membersOf g env2 ↔ c ∈ membersOf g env) ∧
  (∀ g, channel_name (self env) ∈ membersOf g env2 →
        channel_name (self env) ∈ membersOf g env) ∧
  (conn (self env1) = Active → r = Ok tt →
     ∀ rid, scope_room_id (self env) = Some rid →
            channel_name (self env) ∉ membersOf ("chat_" +:+ rid) env2) ∧
  (conn (self env1) ≠ Active → groups env2 = groups env).
Proof.
  intros Hfresh Hconnect Hdisconnect.
  unfold ChatConsumer.disconnect in Hdisconnect.
  cbv [mbind M_bind get mret M_ret group_discard modify] in Hdisconnect.
  apply connect_cases in Hconnect
    as [(Hgroups & Hname & Hch & Hclosed)
       |(-> & Hactive & Hch & u & rid & Hu & Hr & _ & _ & Hname & Hgroups & _)].
  - rewrite Hname, Hfresh in Hdisconnect. injection Hdisconnect as <-.
    unfold membersOf. rewrite Hgroups. split_and!; try done.
    intros Hactive ->. rewrite Hclosed in Hactive; done.
  - rewrite Hname in Hdisconnect. injection Hdisconnect as <-.
    unfold membersOf. simpl. rewrite Hch, Hgroups.
    assert (∀ g, default ∅ (alter (λ members, members ∖ {[channel_name (self env)]})
                              ("chat_" +:+ rid)
                              (<["chat_" +:+ rid :=
                                   {[channel_name (self env)]} ∪
                                   default ∅ (groups env !! ("chat_" +:+ rid))]>
                                 (groups env)) !! g)
                 = if decide (g = "chat_" +:+ rid)
                   then default ∅ (groups env !! g) ∖ {[channel_name (self env)]}
                   else default ∅ (groups env !! g)) as Hm.
    { intros g. case_decide as Hg.
      - subst g. rewrite lookup_alter_eq, lookup_insert_eq. simpl. set_solver.
      - rewrite lookup_alter_ne, lookup_insert_ne by done. done. }
    split_and!.
    + intros g c Hc. rewrite Hm. case_decide; set_solver.
    + intros g. rewrite Hm. case_decide; set_solver.
    + intros _ _ rid' Hrid'. assert (rid' = rid) as -> by congruence.
      rewrite Hm. rewrite decide_True by done. set_solver.
    + by rewrite Hactive.
Qed.

End connection_more.

(** ** views.py: who reads and who marks *)
Section access_more.
Context `{PyRuntime} `{DatabaseBackend}.
Import views.

(** X18. Whatever the request, every message in the body of a listing is a
    message of the room the request names, and the caller is a participant
    of that room: no listing shows a message of a room to somebody outside
    it. *)
Theorem list_shows_only_to_participants request d response d' l md :
  MessageViewSet.list request d = (Ok response, d') →
  data response = MessageListData l → md ∈ l →
  ∃ s room,
    req_query_params request !! "room" = Some s ∧
    py_int s = Some (data_room md) ∧
    db_rooms d !! data_room md = Some room ∧
    user_pk (req_user request) ∈ room_participants room.
Proof.
  intros Hrun Hl Hmd.
  destruct (list_cases _ _ _ _ Hrun)
    as [[-> ->]|(s & R & room & Hs & Hne & HR & Hup & Hroom & Hin)].
  - injection Hl as <-. by apply elem_of_nil in Hmd.
  - rewrite (list_of_participant _ _ _ _ _ Hs Hne HR Hup Hroom Hin) in Hrun.
    injection Hrun as <- <-. injection Hl as <-.
    apply list_elem_of_fmap in Hmd as (m & -> & Hm).
    unfold orm.order_by_timestamp in Hm. rewrite merge_sort_Permutation in Hm.
    apply messages_of_spec in Hm as [_ <-]. by exists s, room.
Qed.

(** X19. Neither the listing nor [mark_read] lets a caller touch the read
    flag of a message outside the caller's rooms or of a message the
    caller sent: a row that differs after the request was unread, belongs
    to a room that has the caller among its participants, was sent by
    somebody else or by nobody, and differs in the read flag only. *)
Theorem read_flag_changes_only_inside request d :
  let changed_inside (m m' : Message) :=
    m' = m ∨
    (m' = set_read m ∧ msg_is_read m = false ∧
     msg_sender m ≠ Some (user_pk (req_user request)) ∧
     ∃ room, db_rooms d !! msg_room m = Some room ∧
             user_pk (req_user request) ∈ room_participants room) in
  (∀ response d',
     MessageViewSet.list request d = (Ok response, d') →
     Forall2 changed_inside (db_messages d) (db_messages d')) ∧
  (∀ response d',
     MessageViewSet.mark_read request d = (Ok response, d') →
     Forall2 changed_inside (db_messages d) (db_messages d')).
Proof.
  intros changed_inside.
  assert (Forall2 changed_inside (db_messages d) (db_messages d)) as Hrefl.
  { apply Forall2_same_length_lookup. split; [done|].
    intros i m m' Hm Hm'. left. congruence. }
  split; intros response d' Hrun.
  - destruct (list_cases _ _ _ _ Hrun)
      as [[-> ->]|(s & R & room & Hs & Hne & HR & Hup & Hroom & Hin)]; [done|].
    rewrite (list_of_participant _ _ _ _ _ Hs Hne HR Hup Hroom Hin) in Hrun.
    injection Hrun as _ <-. simpl.
    eapply Forall2_impl; [apply mark_Forall2|]. intros m m' Hm. simpl in Hm.
    destruct (unread_from_other_senders R (req_user request) m) eqn:Hc; [|by left].
    apply unread_from_other_senders_others, unread_from_others_spec in Hc
      as (HmR & Hr & Hsend).
    right. split_and!; [done..|]. exists room. by rewrite HmR.
  - destruct (decide (status response = HTTP_200_OK)) as [H200|Hno].
    + destruct (mark_read_200_inv _ _ _ _ Hrun H200)
        as (s & R & room & Hs & Hne & HR & Hup & Hroom & Hin).
      rewrite (mark_read_of_participant _ _ _ _ _ Hs Hne HR Hup Hroom Hin) in Hrun.
      injection Hrun as _ <-. simpl.
      eapply Forall2_impl; [apply mark_Forall2|]. intros m m' Hm. simpl in Hm.
      destruct (unread_from_others R (req_user request) m) eqn:Hc; [|by left].
      apply unread_from_others_spec in Hc as (HmR & Hr & Hsend).
      right. split_and!; [done..|]. exists room. by rewrite HmR.
    + by rewrite (mark_read_other_status _ _ _ _ Hrun Hno).
Qed.

End access_more.

(** * The further properties on the end-to-end scenario *)

Section scenario_more.
Import views consumers serializers permissions demo.

#[local] Existing Instance runtime.
#[local] Existing Instance backend.

Ltac by_computation := vm_compute; first [reflexivity | discriminate | done].

Lemma mark_read_refusals_witness :
  MessageViewSet.mark_read (request_without_room bob) db0 =
    (Ok {| status := HTTP_400_BAD_REQUEST; data := ErrorData "Room ID is required" |}, db0) ∧
  MessageViewSet.mark_read (request bob "seven") db0 =
    (Ok {| status := HTTP_400_BAD_REQUEST; data := ErrorData "Invalid room ID format" |}, db0) ∧
  MessageViewSet.mark_read (request bob "9") db0 =
    (Ok {| status := HTTP_404_NOT_FOUND; data := ErrorData "Chat room not found" |}, db0) ∧
  MessageViewSet.mark_read (request carol "7") db0 =
    (Ok {| status := HTTP_403_FORBIDDEN;
           data := ErrorData "You are not a participant in this chat room" |}, db0).
Proof.
  split_and!.
  - apply (proj1 (mark_read_refusals (request_without_room bob) db0)).
    left. by_computation.
  - apply (proj1 (proj2 (mark_read_refusals (request bob "seven") db0)) "seven");
      by_computation.
  - apply (proj1 (proj2 (proj2 (mark_read_refusals (request bob "9") db0))) "9" 9);
      by_computation.
  - apply (proj1 (proj2 (proj2 (proj2 (mark_read_refusals (request carol "7") db0))))
             "7" 7 room7); first [by_computation | compute_done].
Defined.

Lemma mark_read_admits_as_the_guard_witness :
  (ChatConsumer.is_user_participant "7" bob (env_of (handshake (AuthUser bob)) db0)).1 =
    Ok true.
Proof.
  apply (proj1 (mark_read_admits_as_the_guard (request bob "7") "7"
                  (env_of (handshake (AuthUser bob)) db0) eq_refl ltac:(done))).
  exists {| status := HTTP_200_OK; data := MarkedData true 2 |}, db_read_by_bob.
  split; by_computation.
Defined.

Lemma list_twice_witness :
  ∃ response d',
    MessageViewSet.list (request bob "7") db0 = (Ok response, d') ∧
    MessageViewSet.list (request bob "7") d' = (Ok response, d').
Proof.
  destruct (MessageViewSet.list (request bob "7") db0) as [[response|e] d'] eqn:E;
    [|by vm_compute in E].
  exists response, d'. split; [done|]. by apply (list_twice (request bob "7") db0).
Defined.

Lemma list_after_mark_read_changes_nothing_witness :
  ∃ listing,
    MessageViewSet.list (request bob "7") db_read_by_bob = (Ok listing, db_read_by_bob) ∧
    status listing = HTTP_200_OK.
Proof.
  apply (list_after_mark_read_changes_nothing (request bob "7") db0
           {| status := HTTP_200_OK; data := MarkedData true 2 |} db_read_by_bob);
    by_computation.
Defined.

Lemma mark_read_after_list_counts_senderless_witness :
  ∃ s R,
    req_query_params (request bob "7") !! "room" = Some s ∧ py_int s = Some R ∧
    data {| status := HTTP_200_OK; data := MarkedData true 1 |} =
      MarkedData true (length (List.filter (unread_without_sender R) (db_messages db0))).
Proof.
  apply (mark_read_after_list_counts_senderless (request bob "7") db0
           {| status := HTTP_200_OK;
              data := MessageListData
                        (MessageSerializer <$> [set_read hi_from_alice; orphan]) |}
           (set_messages [set_read hi_from_alice; orphan] db0)
           {| status := HTTP_200_OK; data := MarkedData true 1 |} db_read_by_bob);
    by_computation.
Defined.

Lemma unread_count_is_what_mark_read_marks_witness :
  ∃ n d',
    ChatRoomSerializer.get_unread_count room7 (Some bob) db0 = (Ok n, db0) ∧
    MessageViewSet.mark_read (request bob "7") db0 =
      (Ok {| status := HTTP_200_OK; data := MarkedData true n |}, d') ∧
    ChatRoomSerializer.get_unread_count room7 (Some bob) d' = (Ok 0%nat, d').
Proof.
  apply (unread_count_is_what_mark_read_marks (request bob "7") db0 "7" room7 room7);
    first [by_computation | compute_done].
Defined.

Lemma last_message_is_oldest_witness :
  db0 = db0 ∧
  hi_from_alice ∈ db_messages db0 ∧ msg_room hi_from_alice = room_pk room7 ∧
  ∀ m', m' ∈ db_messages db0 → msg_room m' = room_pk room7 →
        msg_timestamp hi_from_alice ≤ msg_timestamp m'.
Proof.
  apply (last_message_is_oldest room7 db0 (Some hi_from_alice) db0). by_computation.
Defined.

Lemma rooms_listed_are_the_callers_witness :
  db_two_rooms = db_two_rooms ∧
  (∀ room, room ∈ [room9; room7] ↔
       ∃ pk, db_rooms db_two_rooms !! pk = Some room ∧
             user_pk bob ∈ room_participants room) ∧
  StronglySorted (λ r1 r2, room_created_at r2 ≤ room_created_at r1) [room9; room7] ∧
  (rooms_by_key db_two_rooms → NoDup (room_pk <$> [room9; room7])).
Proof.
  apply (rooms_listed_are_the_callers (request_without_room bob) db_two_rooms
           [room9; room7] db_two_rooms). by_computation.
Defined.

Lemma object_permission_agrees_with_guard_witness :
  let env := env_of (handshake (AuthUser bob)) db0 in
  IsChatRoomParticipant.has_object_permission bob (RoomObj room7) db0 = (Ok true, db0) ∧
  IsChatRoomParticipant.has_object_permission bob (MessageObj hi_from_alice) db0 =
    (Ok true, db0) ∧
  (ChatConsumer.is_user_participant "7" bob env).1 = Ok true.
Proof.
  intros env.
  destruct (object_permission_agrees_with_guard bob room7 hi_from_alice "7" env room7)
    as (Hroom & Hmessage & Hguard & _); [by_computation..|].
  assert ((ChatConsumer.is_user_participant "7" bob env).1 = Ok true) as Hg.
  { rewrite Hguard by done. by_computation. }
  rewrite Hg in Hroom, Hmessage. done.
Defined.

Lemma receive_text_that_is_no_object_witness :
  (let env := env_of session_alice db0 in
   ChatConsumer.receive (Some frame_garbage) 100 env =
     (Ok tt, with_self (λ c, set_sent (sent c ++ [ErrorFrame "Invalid JSON format."])%list c)
               env)) ∧
  (let env := env_of session_alice db0 in
   ChatConsumer.receive (Some frame_deep) 100 env = (Raise RecursionError, env)) ∧
  (let env := env_of session_alice db0 in
   ChatConsumer.receive (Some frame_long_number) 100 env = (Raise ValueError, env)) ∧
  (let env := env_of session_alice db0 in
   ChatConsumer.receive (H:=runtime_lists) (Some frame_list) 100 env =
     (Raise AttributeError, env)).
Proof.
  split_and!; intros env.
  - apply (proj1 (receive_text_that_is_no_object env 100 frame_garbage ltac:(done)));
      by_computation.
  - apply (proj1 (proj2 (receive_text_that_is_no_object env 100 frame_deep
                           ltac:(done))) RecursionError);
      [by_computation|done].
  - apply (proj1 (proj2 (receive_text_that_is_no_object env 100 frame_long_number
                           ltac:(done))) ValueError);
      [by_computation|done].
  - apply (proj2 (proj2 (receive_text_that_is_no_object (H:=runtime_lists) env 100 frame_list
                           ltac:(done))) (JArr [JInt 1])); [by_computation|done].
Defined.

Lemma receive_mark_read_frame_witness :
  let env := env_of session_alice db0 in
  ∃ env',
    ChatConsumer.receive (Some frame_mark_read) 100 env = (Ok tt, env') ∧
    published env' = published env ∧ groups env' = groups env ∧
    sent (self env') = [ReadStatusFrame "success" "Messages marked as read"] ∧
    read_by 7 alice (db_messages db0) (db_messages (db env')).
Proof.
  intros env.
  destruct (ChatConsumer.receive (Some frame_mark_read) 100 env) as [r env'] eqn:E.
  destruct (receive_mark_read_frame env 100 frame_mark_read
              {[ "type" := JStr "mark_read" ]} alice "7" r env')
    as (-> & Hpub & Hgroups & _ & [(R & HR & _ & Hsent & Hread)|([HR|Hup] & _)]);
    [by_computation..|exact E| | |]; [|by_computation..].
  assert (R = 7) as -> by (vm_compute in HR; congruence).
  by exists env'.
Defined.

Lemma receive_save_failure_witness :
  let env := env_of session_gone db0 in
  ∃ env',
    ChatConsumer.receive (Some frame_hi) 100 env = (Ok tt, env') ∧
    sent (self env') = [ErrorFrame "Failed to save message."] ∧
    db env' = db env ∧ published env' = published env ∧ groups env' = groups env.
Proof.
  intros env.
  destruct (ChatConsumer.receive (Some frame_hi) 100 env) as [r env'] eqn:E.
  destruct (receive_save_failure env 100 frame_hi {[ "message" := JStr "hi" ]}
              alice "8" r env')
    as (-> & Hsent & Hdb & Hpub & Hgroups);
    [by_computation..| |exact E|by exists env'].
  do 2 right. exists 8. split; by_computation.
Defined.

Lemma receive_keeps_messages_witness :
  let env := env_of session_alice db0 in
  ∃ env',
    ChatConsumer.receive (Some frame_hi) 100 env = (Ok tt, env') ∧
    (∃ added, persists (db_messages db0) (db_messages (db env')) added ∧
              (length added ≤ 1)%nat) ∧
    db_users (db env') = db_users db0 ∧ db_rooms (db env') = db_rooms db0.
Proof.
  intros env.
  destruct (ChatConsumer.receive (Some frame_hi) 100 env) as [r env'] eqn:E.
  assert (r = Ok tt) as -> by (vm_compute in E; congruence).
  exists env'. split; [done|].
  exact (receive_keeps_messages (Some frame_hi) 100 env (Ok tt) env' E).
Defined.

Lemma receive_publishes_what_it_stored_witness :
  let env := env_of session_alice db0 in
  ∃ env',
    ChatConsumer.receive (Some frame_hi) 100 env = (Ok tt, env') ∧
    ∃ g v message,
      room_group_name (self env) = Some g ∧
      published env' = (published env ++ [(g, v)])%list ∧
      db_messages (db env') = (db_messages (db env) ++ [message])%list ∧
      view_id v = msg_id message ∧ view_room v = msg_room message ∧
      sent (self env') = sent (self env).
Proof.
  intros env.
  destruct (ChatConsumer.receive (Some frame_hi) 100 env) as [r env'] eqn:E.
  assert (r = Ok tt ∧ published env' ≠ published env) as [-> Hne]
    by (vm_compute in E; injection E as <- <-; split; by_computation).
  exists env'. split; [done|].
  by destruct (receive_publishes_what_it_stored (Some frame_hi) 100 env (Ok tt) env' E).
Defined.

Lemma connect_joins_the_group_of_its_room_id_witness :
  let env := env_of handshake_007 db0 in
  ∃ env',
    ChatConsumer.connect env = (Ok tt, env') ∧
    room_group_name (self env') = Some "chat_007" ∧
    membersOf "chat_007" env' = {[ "channel.2" ]} ∧
    membersOf "chat_7" env' = {[ "channel.0" ]}.
Proof.
  intros env.
  destruct (ChatConsumer.connect env) as [r env'] eqn:E.
  assert (r = Ok tt ∧ conn (self env') = Active) as [-> Hactive]
    by (vm_compute in E; injection E as <- <-; split; by_computation).
  destruct (connect_joins_the_group_of_its_room_id env env' E Hactive)
    as (u & rid & _ & Hrid & _ & _ & Hname & Hjoined & _ & Hother).
  assert (rid = "007") as -> by (vm_compute in Hrid; congruence).
  exists env'. split_and!; [done|exact Hname| |].
  - etrans; [exact Hjoined|]. by_computation.
  - etrans; [exact (Hother "7" ltac:(done))|]. by_computation.
Defined.

Lemma disconnect_leaves_the_group_witness :
  ∃ env',
    ChatConsumer.disconnect env_joined = (Ok tt, env') ∧
    membersOf "chat_7" env' = {[ "channel.0" ]} ∧
    ChatConsumer.disconnect env' = (Ok tt, env').
Proof.
  destruct (ChatConsumer.disconnect env_joined) as [r env'] eqn:E.
  destruct (disconnect_leaves_the_group env_joined r env' E)
    as (-> & _ & _ & _ & _ & Hleft & Htwice).
  exists env'. split_and!; [done| |done].
  destruct (Hleft "chat_7" eq_refl) as [Hmembers _].
  etrans; [exact Hmembers|]. by_computation.
Defined.

Lemma connect_then_disconnect_witness :
  let env := env_of (handshake (AuthUser bob)) db0 in
  ∃ env1 env2,
    ChatConsumer.connect env = (Ok tt, env1) ∧
    ChatConsumer.disconnect env1 = (Ok tt, env2) ∧
    (∀ g c, c ≠ "channel.1" → c ∈ membersOf g env2 ↔ c ∈ membersOf g env) ∧
    "channel.1" ∉ membersOf "chat_7" env2.
Proof.
  intros env.
  destruct (ChatConsumer.connect env) as [r env1] eqn:E1.
  assert (r = Ok tt ∧ conn (self env1) = Active) as [-> Hactive]
    by (vm_compute in E1; injection E1 as <- <-; split; by_computation).
  destruct (ChatConsumer.disconnect env1) as [r2 env2] eqn:E2.
  assert (r2 = Ok tt) as ->
    by (vm_compute in E1; injection E1 as <-; vm_compute in E2; congruence).
  destruct (connect_then_disconnect env (Ok tt) env1 env2 eq_refl E1 E2)
    as (Hothers & _ & Hgone & _).
  exists env1, env2. split_and!; [done|done|exact Hothers|].
  exact (Hgone Hactive eq_refl "7" eq_refl).
Defined.

Lemma list_shows_only_to_participants_witness :
  ∃ s room,
    req_query_params (request bob "7") !! "room" = Some s ∧
    py_int s = Some (data_room (MessageSerializer orphan)) ∧
    db_rooms db0 !! data_room (MessageSerializer orphan) = Some room ∧
    user_pk bob ∈ room_participants room.
Proof.
  apply (list_shows_only_to_participants (request bob "7") db0
           {| status := HTTP_200_OK;
              data := MessageListData
                        (MessageSerializer <$> [set_read hi_from_alice; orphan]) |}
           (set_messages [set_read hi_from_alice; orphan] db0)
           (MessageSerializer <$> [set_read hi_from_alice; orphan]));
    [by_computation | reflexivity | apply list_elem_of_further, list_elem_of_here].
Defined.

Lemma read_flag_changes_only_inside_witness :
  Forall2 (λ m m',
             m' = m ∨
             (m' = set_read m ∧ msg_is_read m = false ∧
              msg_sender m ≠ Some (user_pk bob) ∧
              ∃ room, db_rooms db0 !! msg_room m = Some room ∧
                      user_pk bob ∈ room_participants room))
          (db_messages db0) (db_messages db_read_by_bob).
Proof.
  apply (proj2 (read_flag_changes_only_inside (request bob "7") db0)
           {| status := HTTP_200_OK; data := MarkedData true 2 |} db_read_by_bob).
  by_computation.
Defined.

Lemma save_message_stores_or_answers_None_witness :
  let env := env_of session_alice db_without_alice in
  ∃ r env',
    ChatConsumer.save_message "7" alice (JStr "hi") 100 env = (r, env') ∧
    r = Ok None ∧ env' = env.
Proof.
  intros env.
  destruct (ChatConsumer.save_message "7" alice (JStr "hi") 100 env) as [r env'] eqn:E.
  exists r, env'. split; [done|].
  destruct (save_message_stores_or_answers_None "7" alice (JStr "hi") 100 env r env' E)
    as (_ & _ & _ & [(R & room & _ & _ & _ & Hrej & _)|(-> & -> & _)]); [|done].
  vm_compute in Hrej. discriminate.
Defined.

End scenario_more.
